(** * npipe: named-pipe connections over overlapped I/O

    A shallow embedding of [npipe_windows.go].  The package is a thin layer
    over the Windows kernel and the Go runtime: every function is a short
    sequence of system calls whose answers decide what is returned.  The
    embedding therefore keeps the kernel outside: a world type [W] and a
    single entry point [sys] answer every call, and the Go functions are
    written in a state monad over [W], one definition per source function,
    with the source's names.

    Conventions of the embedding
    - Go's [error] interface is [option error_value]; [None] is [nil].
    - [syscall.Handle], [uint32], [int], [time.Time] and [time.Duration] are
      [Z]; a conversion that truncates is written out ([uint32]).  Times are
      nanoseconds on the monotonic clock.
    - A pointer receiver is passed by value and handed back by the methods
      that may assign to its fields.
    - A system call that never returns parks the program ([Blocked]); the two
      unbounded [for] loops of the package take a budget of iterations and
      stop in [Spin] when it is used up. *)

From Stdlib Require Import ZArith List String Ascii Bool Lia.
From Stdlib Require Import DecimalString DecimalZ DecimalPos HexString.
Import ListNotations.

Set Warnings "-register-all".

Local Open Scope string_scope.
Local Open Scope Z_scope.

(* ===================================================================== *)
(** ** Constants *)
(* ===================================================================== *)

(** openMode *)
Definition pipe_access_duplex : Z := 0x3.
Definition pipe_access_inbound : Z := 0x1.
Definition pipe_access_outbound : Z := 0x2.

(** openMode write flags *)
Definition file_flag_first_pipe_instance : Z := 0x00080000.
Definition file_flag_write_through : Z := 0x80000000.
Definition file_flag_overlapped : Z := 0x40000000.

(** openMode ACL flags *)
Definition write_dac : Z := 0x00040000.
Definition write_owner : Z := 0x00080000.
Definition access_system_security : Z := 0x01000000.

(** pipeMode *)
Definition pipe_type_byte : Z := 0x0.
Definition pipe_type_message : Z := 0x4.

(** pipeMode read mode flags *)
Definition pipe_readmode_byte : Z := 0x0.
Definition pipe_readmode_message : Z := 0x2.

(** pipeMode wait mode flags *)
Definition pipe_wait : Z := 0x0.
Definition pipe_nowait : Z := 0x1.

(** pipeMode remote-client mode flags *)
Definition pipe_accept_remote_clients : Z := 0x0.
Definition pipe_reject_remote_clients : Z := 0x8.

Definition pipe_unlimited_instances : Z := 255.

Definition nmpwait_wait_forever : Z := 0xFFFFFFFF.

(** [error_pipe_connected] is the not-an-error that occurs if a client
    connects to the pipe between the server's CreateNamedPipe and
    ConnectNamedPipe calls. *)
Definition error_pipe_connected : Z := 0x217.
Definition error_pipe_busy : Z := 0xE7.
Definition error_sem_timeout : Z := 0x79.

Definition error_bad_pathname : Z := 0xA1.
Definition error_invalid_name : Z := 0x7B.

Definition error_io_incomplete : Z := 0x3e4.

Definition SECURITY_DESCRIPTOR_REVISION : Z := 1.

(** Conversion of an integer to [uint32]: the low 32 bits. *)
Definition uint32 (z : Z) : Z := z mod 2 ^ 32.

(* ===================================================================== *)
(** ** Data *)
(* ===================================================================== *)

(** [type PipeAddr string] *)
Definition PipeAddr : Type := string.

(** [type PipeError struct { msg string; timeout bool }] *)
Module PipeError.
Record t : Type := mk { msg : string; timeout : bool }.

(** [Error] implements the error interface. *)
Definition Error (e : t) : string := msg e.

(** [Timeout] implements [net.AddrError.Timeout()]. *)
Definition Timeout (e : t) : bool := timeout e.

(** [Temporary] implements [net.AddrError.Temporary()]. *)
Definition Temporary (e : t) : bool := false.
End PipeError.

(** The dynamic values an [error] of this package can hold. *)
Inductive error_value : Type :=
| Errno (e : Z)                                        (* syscall.Errno *)
| PipeErr (e : PipeError.t)                            (* PipeError *)
| PathError (Op Path : string) (Err : option error_value) (* *os.PathError *)
| SyscallError (Syscall : string) (Err : error_value)  (* *os.SyscallError *)
| EOF.                                                 (* io.EOF *)

Definition error : Type := option error_value.
Abbreviation nil := (@None error_value) (only parsing).

(** [err == c] for an errno constant [c]. *)
Definition is_errno (err : error) (c : Z) : bool :=
  match err with
  | Some (Errno e) => e =? c
  | _ => false
  end.

(** [syscall.Overlapped]; only the event is set by this package. *)
Record Overlapped : Type := { HEvent : Z }.

(** The result of [initSecurityAttributes]: a descriptor with a present,
    empty, non-defaulted DACL.  Its address is the environment's. *)
Inductive SecurityAttributes : Type := NullDaclAttributes.

Module PipeConn.
Record t : Type := mk {
  handle : Z;
  addr : PipeAddr;
  readDeadline : option Z;
  writeDeadline : option Z
}.
End PipeConn.

Module PipeListener.
Record t : Type := mk {
  addr : PipeAddr;
  handle : Z;
  closed : bool
}.
End PipeListener.

(** [type iodata struct { n uint32; err error }] *)
Module iodata.
Record t : Type := mk { n : Z; err : error }.
End iodata.

(* ===================================================================== *)
(** ** The environment *)
(* ===================================================================== *)

(** Every request the package makes of the kernel or of the Go runtime,
    with the arguments it passes. *)
Inductive Call : Type :=
| SysCreateNamedPipe (name : string)
    (openMode pipeMode maxInstances outBufSize inBufSize defaultTimeout : Z)
    (sa : option SecurityAttributes)
| SysConnectNamedPipe (handle : Z) (overlapped : Overlapped)
| SysDisconnectNamedPipe (handle : Z)
| SysWaitNamedPipe (name : string) (timeout : Z)
| SysCreateEvent (sa : option SecurityAttributes)
    (manualReset initialState : bool) (name : option string)
| SysGetOverlappedResult (handle : Z) (overlapped : Overlapped) (wait : bool)
| SysWaitForSingleObject (event : Z) (waitMilliseconds : Z)
| SysCancelIoEx (handle : Z) (overlapped : Overlapped)
| SysCloseHandle (handle : Z)
| SysCreateFile (path : string) (access mode : Z)
    (sa : option SecurityAttributes) (createmode attrs templatefile : Z)
| SysReadFile (handle : Z) (len : nat) (overlapped : Overlapped)
| SysWriteFile (handle : Z) (buf : list Byte.byte) (overlapped : Overlapped)
| SysInitializeSecurityDescriptor (revision : Z)
| SysSetSecurityDescriptorDacl (present defaulted : Z)
| TimeNow
| TimeAfter (d : Z).

(** An environment over worlds [W].  [sys c w] is [None] when the call
    never returns, and otherwise the value the call yields (a handle, a
    count, a wait status, a clock reading), the errno it reports if any,
    and the next world.  [Errno_Timeout] is [syscall.Errno.Timeout]: which
    errnos Go counts as timeouts. *)
Class OS (W : Type) : Type := {
  sys : Call -> W -> option (Z * option Z * W);
  Errno_Timeout : Z -> bool
}.

(** How a run ends. *)
Inductive Res (W A : Type) : Type :=
| Done (a : A) (w : W)       (* returned [a] *)
| Blocked (c : Call) (w : W) (* parked for ever in call [c] *)
| Spin (w : W)               (* loop budget used up, still looping *)
| Panic (w : W).             (* nil pointer dereference *)

Arguments Done {W A} a w.
Arguments Blocked {W A} c w.
Arguments Spin {W A} w.
Arguments Panic {W A} w.

Definition M (W A : Type) : Type := W -> Res W A.

Definition ret {W A} (a : A) : M W A := fun w => Done a w.

Definition bind {W A B} (m : M W A) (k : A -> M W B) : M W B :=
  fun w =>
    match m w with
    | Done a w' => k a w'
    | Blocked c w' => Blocked c w'
    | Spin w' => Spin w'
    | Panic w' => Panic w'
    end.

Definition spin {W A} : M W A := fun w => Spin w.

Definition panic {W A} : M W A := fun w => Panic w.

Notation "x <- m ;; k" := (bind m (fun x => k))
  (at level 61, m at next level, right associativity).
Notation "' p <- m ;; k" := (bind m (fun x => match x with p => k end))
  (at level 61, p pattern, m at next level, right associativity).
Notation "m ;;; k" := (bind m (fun _ => k))
  (at level 61, right associativity).

(** One call: the value and the error a Go stub returns for it. *)
Definition call {W} `{OS W} (c : Call) : M W (Z * error) :=
  fun w =>
    match sys c w with
    | Some (v, e, w') => Done (v, option_map Errno e) w'
    | None => Blocked c w
    end.

(* ===================================================================== *)
(** ** The Go packages the source imports *)
(* ===================================================================== *)

(** [syscall]: the constants the source names, with their values on
    Windows, and the calls it makes directly. *)
Module syscall.
Definition ERROR_FILE_NOT_FOUND : Z := 2.
Definition ERROR_ACCESS_DENIED : Z := 5.
Definition ERROR_INVALID_HANDLE : Z := 6.
Definition ERROR_BROKEN_PIPE : Z := 109.
Definition ERROR_IO_PENDING : Z := 997.
(** [APPLICATION_ERROR + 39], an errno invented by Go. *)
Definition EINVAL : Z := 536870951.

Definition INFINITE : Z := 0xFFFFFFFF.
Definition WAIT_OBJECT_0 : Z := 0.
Definition WAIT_TIMEOUT : Z := 258.
Definition WAIT_FAILED : Z := 0xFFFFFFFF.

Definition InvalidHandle : Z := 0xFFFFFFFFFFFFFFFF.

Definition GENERIC_READ : Z := 0x80000000.
Definition GENERIC_WRITE : Z := 0x40000000.
Definition FILE_SHARE_READ : Z := 0x1.
Definition FILE_SHARE_WRITE : Z := 0x2.
Definition OPEN_EXISTING : Z := 3.
Definition FILE_FLAG_OVERLAPPED : Z := 0x40000000.

Fixpoint hasNUL (s : string) : bool :=
  match s with
  | EmptyString => false
  | String c s' => Ascii.eqb c Ascii.zero || hasNUL s'
  end.

(** [UTF16PtrFromString s]: [EINVAL] when [s] holds a NUL byte.  The
    pointer is stood for by the string it points to. *)
Definition UTF16PtrFromString (s : string) : option string * error :=
  if hasNUL s then (None, Some (Errno EINVAL)) else (Some s, nil).

Section Calls.
Context {W : Type} `{OS W}.

Definition WaitForSingleObject (event waitMilliseconds : Z)
  : M W (Z * error) :=
  call (SysWaitForSingleObject event waitMilliseconds).

Definition CancelIoEx (handle : Z) (overlapped : Overlapped)
  : M W error :=
  '(_, err) <- call (SysCancelIoEx handle overlapped) ;; ret err.

Definition CloseHandle (handle : Z) : M W error :=
  '(_, err) <- call (SysCloseHandle handle) ;; ret err.

Definition CreateFile (path : string) (access mode : Z)
    (sa : option SecurityAttributes) (createmode attrs templatefile : Z)
  : M W (Z * error) :=
  call (SysCreateFile path access mode sa createmode attrs templatefile).

(** [ReadFile(handle, buf, &done, overlapped)]: the count written to
    [done] and the error.  The bytes put in [buf] stay with the
    environment. *)
Definition ReadFile (handle : Z) (buf : list Byte.byte)
    (overlapped : Overlapped) : M W (Z * error) :=
  call (SysReadFile handle (List.length buf) overlapped).

Definition WriteFile (handle : Z) (buf : list Byte.byte)
    (overlapped : Overlapped) : M W (Z * error) :=
  call (SysWriteFile handle buf overlapped).
End Calls.
End syscall.

(** [time]: instants and durations in nanoseconds. *)
Module time.
Definition Nanosecond : Z := 1.
Definition Millisecond : Z := 1000000.
(** [t.Add d], [t.Before u] and [t.Sub u] on monotonic readings. *)
Definition Add (t d : Z) : Z := t + d.
Definition Before (t u : Z) : bool := t <? u.
Definition Sub (t u : Z) : Z := t - u.

Section Calls.
Context {W : Type} `{OS W}.

Definition Now : M W Z :=
  '(t, _) <- call TimeNow ;; ret t.

(** [<-time.After(d)]: returns once [d] has passed. *)
Definition After (d : Z) : M W unit :=
  call (TimeAfter d) ;;; ret tt.
End Calls.
End time.

(** [fmt] and [strconv]: the three verbs the source formats with, and
    [Atoi]. *)
Module fmt.
(** [%d] *)
Definition d (z : Z) : string := NilZero.string_of_int (Z.to_int z).

(** [%x] *)
Definition x (z : Z) : string :=
  match z with
  | Z0 => "0"
  | Zpos p => HexString.Raw.of_pos p ""
  | Zneg p => "-" ++ HexString.Raw.of_pos p ""
  end.

(** [%v] of a nil [error]. *)
Definition v_nil : string := "<nil>".
End fmt.

Module strconv.
(** [Atoi s]: the number and whether parsing failed; the number is 0
    when it did. *)
Definition Atoi (s : string) : Z * bool :=
  match NilZero.int_of_string s with
  | Some i => (Z.of_int i, false)
  | None => (0, true)
  end.
End strconv.

Module os.
(** [NewSyscallError]: nil stays nil. *)
Definition NewSyscallError (syscall : string) (err : error) : error :=
  match err with
  | None => None
  | Some e => Some (SyscallError syscall e)
  end.
End os.

(* ===================================================================== *)
(** ** The package *)
(* ===================================================================== *)

Definition badAddr (addr : string) : PipeError.t :=
  PipeError.mk ("Invalid pipe address '" ++ addr ++ "'.") false.

Definition timeout (addr : string) : PipeError.t :=
  PipeError.mk ("Pipe IO timed out waiting for '" ++ addr ++ "'") true.

(** The error [DialTimeout] builds at both of its timeout exits. *)
Definition dialTimedOut (address : string) : PipeError.t :=
  PipeError.mk
    ("Timed out waiting for pipe '" ++ address ++ "' to come available") true.

(** [isPipeNotReady] checks the error to see if it indicates the pipe is
    not ready. *)
Definition isPipeNotReady (err : error) : bool :=
  match err with
  | Some (PathError _ _ Err) => is_errno Err error_pipe_busy
  | _ => is_errno err syscall.ERROR_FILE_NOT_FOUND
  end.

(** [err == error_io_incomplete || err == syscall.ERROR_IO_PENDING], the
    test [completeRequest] and [_acceptPipe] make before they wait. *)
Definition pending (err : error) : bool :=
  is_errno err error_io_incomplete || is_errno err syscall.ERROR_IO_PENDING.

Section Package.
Context {W : Type} `{OS W}.

(** *** The [//sys] stubs *)

Definition createNamedPipe (name : string)
    (openMode pipeMode maxInstances outBufSize inBufSize defaultTimeout : Z)
    (sa : option SecurityAttributes) : M W (Z * error) :=
  call (SysCreateNamedPipe name openMode pipeMode maxInstances
          outBufSize inBufSize defaultTimeout sa).

Definition connectNamedPipe (handle : Z) (overlapped : Overlapped)
  : M W error :=
  '(_, err) <- call (SysConnectNamedPipe handle overlapped) ;; ret err.

Definition disconnectNamedPipe (handle : Z) : M W error :=
  '(_, err) <- call (SysDisconnectNamedPipe handle) ;; ret err.

Definition waitNamedPipe (name : string) (timeout : Z) : M W error :=
  '(_, err) <- call (SysWaitNamedPipe name timeout) ;; ret err.

Definition createEvent (sa : option SecurityAttributes)
    (manualReset initialState : bool) (name : option string)
  : M W (Z * error) :=
  call (SysCreateEvent sa manualReset initialState name).

(** The count is the stub's [*transferred]. *)
Definition getOverlappedResult (handle : Z) (overlapped : Overlapped)
    (wait : bool) : M W (Z * error) :=
  call (SysGetOverlappedResult handle overlapped wait).

(** *** initSecurityAttributes *)

Definition initSecurityAttributes
  : M W (option SecurityAttributes * error) :=
  '(res, err) <-
    call (SysInitializeSecurityDescriptor SECURITY_DESCRIPTOR_REVISION) ;;
  if res =? 0 then
    ret (None, os.NewSyscallError "InitializeSecurityDescriptor" err)
  else
    let present := 1 in
    let defaulted := 0 in
    '(res, err) <- call (SysSetSecurityDescriptorDacl present defaulted) ;;
    if res =? 0 then
      ret (None, os.NewSyscallError "SetSecurityDescriptorDacl" err)
    else ret (Some NullDaclAttributes, nil).

(** *** newOverlapped, waitForCompletion *)

Definition newOverlapped : M W (option Overlapped * error) :=
  '(event, err) <- createEvent None true true None ;;
  match err with
  | Some _ => ret (None, err)
  | None => ret (Some {| HEvent := event |}, nil)
  end.

Definition waitForCompletion (handle : Z) (mills : Z)
    (overlapped : Overlapped) : M W (Z * error) :=
  '(s, err) <-
    (if mills =? 0 then
       syscall.WaitForSingleObject (HEvent overlapped) syscall.INFINITE
     else
       syscall.WaitForSingleObject (HEvent overlapped) (uint32 mills)) ;;
  match err with
  | Some _ => ret (0, err)
  | None =>
    if s =? syscall.WAIT_OBJECT_0 then
      getOverlappedResult handle overlapped true
    else if s =? syscall.WAIT_FAILED then
      ret (0, Some (PipeErr (PipeError.mk
                      ("WaitForSingleObject " ++ fmt.v_nil) false)))
    else if s =? syscall.WAIT_TIMEOUT then
      ret (0, Some (PipeErr (PipeError.mk "wait timeout" true)))
    else
      ret (0, Some (PipeErr (PipeError.mk
                      ("WaitForSingleObject error on " ++ fmt.x s) false)))
  end.

(** *** dial, Dial, DialTimeout *)

Definition dial (address : string) (timeout : Z)
  : M W (option PipeConn.t * error) :=
  match syscall.UTF16PtrFromString address with
  | (_, Some e) => ret (None, Some e)
  | (None, None) => panic
  | (Some name, None) =>
    err <- waitNamedPipe name timeout ;;
    match err with
    | Some _ =>
      if is_errno err error_bad_pathname then
        ret (None, Some (PipeErr (badAddr address)))
      else ret (None, err)
    | None =>
      match syscall.UTF16PtrFromString address with
      | (_, Some e) => ret (None, Some e)
      | (None, None) => panic
      | (Some pathp, None) =>
        '(handle, err) <-
          syscall.CreateFile pathp
            (Z.lor syscall.GENERIC_READ syscall.GENERIC_WRITE)
            (uint32 (Z.lor syscall.FILE_SHARE_READ syscall.FILE_SHARE_WRITE))
            None syscall.OPEN_EXISTING syscall.FILE_FLAG_OVERLAPPED 0 ;;
        match err with
        | Some _ => ret (None, err)
        | None => ret (Some (PipeConn.mk handle address None None), nil)
        end
      end
    end
  end.

(** [Dial]; [fuel] bounds the turns of its [for] loop. *)
Fixpoint Dial (fuel : nat) (address : string)
  : M W (option PipeConn.t * error) :=
  match fuel with
  | O => spin
  | S fuel' =>
    '(conn, err) <- dial address nmpwait_wait_forever ;;
    match err with
    | None => ret (conn, nil)
    | Some _ =>
      if isPipeNotReady err then
        time.After (100 * time.Millisecond) ;;;
        Dial fuel' address
      else ret (None, err)
    end
  end.

(** The [for now.Before(deadline)] loop of [DialTimeout]. *)
Fixpoint DialTimeout_loop (fuel : nat) (address : string)
    (deadline now : Z) : M W (option PipeConn.t * error) :=
  if time.Before now deadline then
    match fuel with
    | O => spin
    | S fuel' =>
      let millis :=
        uint32 (Z.quot (time.Sub deadline now) time.Millisecond) in
      '(conn, err) <- dial address millis ;;
      match err with
      | None => ret (conn, nil)
      | Some _ =>
        if is_errno err error_sem_timeout then
          ret (None, Some (PipeErr (dialTimedOut address)))
        else if isPipeNotReady err then
          t <- time.Now ;;
          let left := time.Sub deadline t in
          let retry := 100 * time.Millisecond in
          (if left >? retry then time.After retry
           else time.After (left - time.Millisecond)) ;;;
          now <- time.Now ;;
          DialTimeout_loop fuel' address deadline now
        else ret (None, err)
      end
    end
  else ret (None, Some (PipeErr (dialTimedOut address))).

Definition DialTimeout (fuel : nat) (address : string) (timeout : Z)
  : M W (option PipeConn.t * error) :=
  t <- time.Now ;;
  let deadline := time.Add t timeout in
  now <- time.Now ;;
  DialTimeout_loop fuel address deadline now.

(** *** createPipe, Listen *)

(** [createPipe] makes sure pipes are always created with the same
    arguments.  If [first] is set, fail if the pipe already exists.  The
    error of [initSecurityAttributes] is overwritten unread. *)
Definition createPipe (address : string) (first : bool)
  : M W (Z * error) :=
  match syscall.UTF16PtrFromString address with
  | (_, Some e) => ret (0, Some e)
  | (None, None) => panic
  | (Some n, None) =>
    let mode := uint32 (Z.lor pipe_access_duplex
                              syscall.FILE_FLAG_OVERLAPPED) in
    let mode :=
      if first then Z.lor mode file_flag_first_pipe_instance else mode in
    '(sa, _) <- initSecurityAttributes ;;
    createNamedPipe n mode pipe_type_byte pipe_unlimited_instances
      512 512 0 sa
  end.

Definition Listen (address : string)
  : M W (option PipeListener.t * error) :=
  '(handle, err) <- createPipe address false ;;
  if is_errno err error_invalid_name then
    ret (None, Some (PipeErr (badAddr address)))
  else
    match err with
    | Some _ => ret (None, err)
    | None => ret (Some (PipeListener.mk address handle false), nil)
    end.

(** *** PipeListener *)

(** [_acceptPipe].  The receiver comes back as the call leaves it. *)
Definition PipeListener__acceptPipe (l : option PipeListener.t)
    (mills : Z)
  : M W (option PipeListener.t * (option PipeConn.t * error)) :=
  match l with
  | None => ret (l, (None, Some (Errno syscall.EINVAL)))
  | Some l0 =>
    if (PipeListener.addr l0 =? "")%string || PipeListener.closed l0 then
      ret (l, (None, Some (Errno syscall.EINVAL)))
    else
      let handle := PipeListener.handle l0 in
      '(handle, err) <-
        (if handle =? 0 then createPipe (PipeListener.addr l0) false
         else ret (handle, nil)) ;;
      match err with
      | Some _ => ret (l, (None, err))
      | None =>
        '(overlapped, err) <- newOverlapped ;;
        match err, overlapped with
        | Some _, _ => ret (l, (None, err))
        | None, None => panic
        | None, Some overlapped =>
          r <-
            (err <- connectNamedPipe handle overlapped ;;
             match err with
             | None =>
               ret (Some (PipeConn.mk handle (PipeListener.addr l0)
                            None None), nil)
             | Some _ =>
               if is_errno err error_pipe_connected then
                 ret (Some (PipeConn.mk handle (PipeListener.addr l0)
                              None None), nil)
               else
                 err <-
                   (if is_errno err error_io_incomplete
                       || is_errno err syscall.ERROR_IO_PENDING
                    then
                      '(_, err) <-
                        waitForCompletion handle mills overlapped ;;
                      ret err
                    else ret err) ;;
                 match err with
                 | Some _ => ret (None, err)
                 | None =>
                   ret (Some (PipeConn.mk handle (PipeListener.addr l0)
                                None None), nil)
                 end
             end) ;;
          (* the deferred function *)
          (if negb (HEvent overlapped =? 0) then
             syscall.CancelIoEx handle overlapped ;;; ret tt
           else ret tt) ;;;
          syscall.CloseHandle (HEvent overlapped) ;;;
          ret (l, r)
        end
      end
  end.

Definition PipeListener_AcceptTimeout (l : option PipeListener.t)
    (mills : Z) :=
  PipeListener__acceptPipe l mills.

Definition PipeListener_AcceptPipe (l : option PipeListener.t) :=
  PipeListener__acceptPipe l 0.

Definition PipeListener_Accept (l : option PipeListener.t)
  : M W (option PipeListener.t * (option PipeConn.t * error)) :=
  '(l, (c, err)) <- PipeListener_AcceptPipe l ;;
  match err with
  | Some _ => ret (l, (None, err))
  | None => ret (l, (c, nil))
  end.

(** [Close] stops listening on the address. *)
Definition PipeListener_Close (l : PipeListener.t)
  : M W (PipeListener.t * error) :=
  if PipeListener.closed l then ret (l, nil)
  else
    let l := PipeListener.mk (PipeListener.addr l)
               (PipeListener.handle l) true in
    if negb (PipeListener.handle l =? 0) then
      err <- disconnectNamedPipe (PipeListener.handle l) ;;
      let l := PipeListener.mk (PipeListener.addr l) 0
                 (PipeListener.closed l) in
      ret (l, err)
    else ret (l, nil).

Definition PipeListener_Addr (l : PipeListener.t) : PipeAddr :=
  PipeListener.addr l.

(** *** PipeConn *)

(** [err.(net.Error)] succeeds and [Timeout()] answers true.  Of the
    error values above, [PipeError] and [syscall.Errno] have both
    [Timeout] and [Temporary]. *)
Definition net_Error_Timeout (e : error_value) : bool :=
  match e with
  | PipeErr p => PipeError.Timeout p
  | Errno z => Errno_Timeout z
  | _ => false
  end.

(** The first block of [completeRequest]: wait for a pending request. *)
Definition completeRequest_pending (c : PipeConn.t) (data : iodata.t)
    (deadline : option Z) (overlapped : Overlapped) : M W iodata.t :=
  if is_errno (iodata.err data) error_io_incomplete
     || is_errno (iodata.err data) syscall.ERROR_IO_PENDING
  then
    mills <-
      match deadline with
      | None => ret 0
      | Some deadline =>
        nowt <- time.Now ;;
        let timeDiff := time.Sub deadline nowt in
        if timeDiff >? 0 then
          ret (fst (strconv.Atoi
                      (fmt.d (Z.quot (time.Sub deadline nowt)
                                     time.Millisecond))))
        else ret 0
      end ;;
    '(n, err) <- waitForCompletion (PipeConn.handle c) mills overlapped ;;
    match err with
    | Some e =>
      if net_Error_Timeout e then
        syscall.CancelIoEx (PipeConn.handle c) overlapped ;;; ret tt
      else ret tt
    | None => ret tt
    end ;;;
    ret (iodata.mk n err)
  else ret data.

(** [completeRequest]: then turn [ERROR_BROKEN_PIPE] into [io.EOF]. *)
Definition completeRequest (c : PipeConn.t) (data : iodata.t)
    (deadline : option Z) (overlapped : Overlapped) : M W (Z * error) :=
  data <- completeRequest_pending c data deadline overlapped ;;
  let data :=
    if is_errno (iodata.err data) syscall.ERROR_BROKEN_PIPE
    then iodata.mk (iodata.n data) (Some EOF)
    else data in
  ret (iodata.n data, iodata.err data).

Definition PipeConn_Read (c : PipeConn.t) (b : list Byte.byte)
  : M W (Z * error) :=
  '(overlapped, err) <- newOverlapped ;;
  match err, overlapped with
  | Some _, _ => ret (0, err)
  | None, None => panic
  | None, Some overlapped =>
    '(n, err) <- syscall.ReadFile (PipeConn.handle c) b overlapped ;;
    r <- completeRequest c (iodata.mk n err)
           (PipeConn.readDeadline c) overlapped ;;
    syscall.CloseHandle (HEvent overlapped) ;;;
    ret r
  end.

Definition PipeConn_Write (c : PipeConn.t) (b : list Byte.byte)
  : M W (Z * error) :=
  '(overlapped, err) <- newOverlapped ;;
  match err, overlapped with
  | Some _, _ => ret (0, err)
  | None, None => panic
  | None, Some overlapped =>
    '(n, err) <- syscall.WriteFile (PipeConn.handle c) b overlapped ;;
    r <- completeRequest c (iodata.mk n err)
           (PipeConn.writeDeadline c) overlapped ;;
    syscall.CloseHandle (HEvent overlapped) ;;;
    ret r
  end.

(** [Close] closes the connection.  No field of the receiver is
    assigned. *)
Definition PipeConn_Close (c : PipeConn.t) : M W (PipeConn.t * error) :=
  err <- syscall.CloseHandle (PipeConn.handle c) ;;
  ret (c, err).

Definition PipeConn_LocalAddr (c : PipeConn.t) : PipeAddr :=
  PipeConn.addr c.

Definition PipeConn_RemoteAddr (c : PipeConn.t) : PipeAddr :=
  PipeConn.addr c.
End Package.

Definition PipeConn_SetReadDeadline (c : PipeConn.t) (t : Z)
  : PipeConn.t * error :=
  (PipeConn.mk (PipeConn.handle c) (PipeConn.addr c) (Some t)
     (PipeConn.writeDeadline c), nil).

Definition PipeConn_SetWriteDeadline (c : PipeConn.t) (t : Z)
  : PipeConn.t * error :=
  (PipeConn.mk (PipeConn.handle c) (PipeConn.addr c)
     (PipeConn.readDeadline c) (Some t), nil).

Definition PipeConn_SetDeadline (c : PipeConn.t) (t : Z)
  : PipeConn.t * error :=
  let c := fst (PipeConn_SetReadDeadline c t) in
  let c := fst (PipeConn_SetWriteDeadline c t) in
  (c, nil).

(** [Network] returns the address's network name. *)
Definition PipeAddr_Network (a : PipeAddr) : string := "pipe".

Definition PipeAddr_String (a : PipeAddr) : string := a.

(* ===================================================================== *)
(** ** A simulated kernel *)
(* ===================================================================== *)

(** Environments on which the package can be run: the world is the log of
    the calls answered so far, most recent first, and a kernel decides each
    answer from the log and the call.  [reference] is a kernel on which
    everything succeeds; the others differ from it in the answers named.
    These kernels report Windows error codes only, none of which is one of
    the errnos Go invents and counts as timeouts, so [Errno_Timeout] is
    false on them. *)
Module Sim.
Definition Answer : Type := (Z * option Z)%type.
Definition World : Type := list (Call * Answer).
Definition Kernel : Type := World -> Call -> option Answer.

Definition run (K : Kernel) : OS World := {|
  sys := fun c w =>
    match K w c with
    | Some a => Some (fst a, snd a, (c, a) :: w)
    | None => None
    end;
  Errno_Timeout := fun _ => false
|}.

(** The calls of a log, oldest first. *)
Definition calls (w : World) : list Call := rev (map fst w).

(** How many pipe instances the log has seen created. *)
Definition creations (w : World) : nat :=
  List.length
    (filter (fun ev =>
               match ev with
               | (SysCreateNamedPipe _ _ _ _ _ _ _ _, (_, None)) => true
               | _ => false
               end) w).

Inductive Object : Type := File | Event.

(** What handle [hd] refers to, if it is open: the latest event about
    it decides. *)
Fixpoint object_at (hd : Z) (w : World) : option Object :=
  match w with
  | [] => None
  | (SysCloseHandle x, (_, None)) :: w' =>
    if x =? hd then None else object_at hd w'
  | (SysCreateFile _ _ _ _ _ _ _, (x, None)) :: w'
  | (SysCreateNamedPipe _ _ _ _ _ _ _ _, (x, None)) :: w' =>
    if x =? hd then Some File else object_at hd w'
  | (SysCreateEvent _ _ _ _, (x, None)) :: w' =>
    if x =? hd then Some Event else object_at hd w'
  | _ :: w' => object_at hd w'
  end.

Definition is_open (hd : Z) (w : World) : bool :=
  match object_at hd w with Some _ => true | None => false end.

Definition is_file (hd : Z) (w : World) : bool :=
  match object_at hd w with Some File => true | _ => false end.

(** The lowest handle value that is free; values are recycled. *)
Fixpoint lowest_free (candidate : Z) (tries : nat) (w : World) : Z :=
  match tries with
  | O => candidate
  | S tries' =>
    if is_open candidate w then lowest_free (candidate + 4) tries' w
    else candidate
  end.

Definition fresh (w : World) : Z := lowest_free 0x100 (List.length w) w.

(** Whether an instance of pipe [name] has been created. *)
Definition has_instance (name : string) (w : World) : bool :=
  existsb (fun ev =>
             match ev with
             | (SysCreateNamedPipe name' _ _ _ _ _ _ _, (_, None)) =>
               (name' =? name)%string
             | _ => false
             end) w.

(** The clock: a sleep takes its duration, any other call a
    microsecond. *)
Fixpoint clock (w : World) : Z :=
  match w with
  | [] => 0
  | (TimeAfter d, _) :: w' => clock w' + Z.max d 0
  | _ :: w' => clock w' + 1000
  end.

Definition reference : Kernel := fun w c =>
  match c with
  | SysCreateNamedPipe name openMode _ _ _ _ _ _ =>
    if negb (Z.land openMode file_flag_first_pipe_instance =? 0)
       && has_instance name w
    then Some (syscall.InvalidHandle, Some syscall.ERROR_ACCESS_DENIED)
    else Some (fresh w, None)
  | SysCreateFile _ _ _ _ _ _ _ => Some (fresh w, None)
  | SysCreateEvent _ _ _ _ => Some (fresh w, None)
  | SysConnectNamedPipe _ _ => Some (0, Some syscall.ERROR_IO_PENDING)
  | SysWaitForSingleObject _ _ => Some (syscall.WAIT_OBJECT_0, None)
  | SysGetOverlappedResult _ _ _ => Some (0, None)
  | SysReadFile hd len _ =>
    if is_file hd w then Some (Z.of_nat len, None)
    else Some (0, Some syscall.ERROR_INVALID_HANDLE)
  | SysWriteFile hd buf _ =>
    if is_file hd w then Some (Z.of_nat (List.length buf), None)
    else Some (0, Some syscall.ERROR_INVALID_HANDLE)
  | SysCloseHandle hd =>
    if is_open hd w then Some (1, None)
    else Some (0, Some syscall.ERROR_INVALID_HANDLE)
  | TimeNow => Some (clock w, None)
  | _ => Some (1, None)
  end.

(** [K] with the answers of [f] where [f] gives one. *)
Definition override (f : Call -> option (option Answer)) (K : Kernel)
  : Kernel :=
  fun w c => match f c with Some a => a | None => K w c end.

(** A request that stays pending: reads and writes are queued, a finite
    wait times out, an infinite wait never returns. *)
Definition never_completes : Kernel :=
  override (fun c =>
    match c with
    | SysReadFile _ _ _ | SysWriteFile _ _ _ =>
      Some (Some (0, Some syscall.ERROR_IO_PENDING))
    | SysWaitForSingleObject _ ms =>
      if ms =? syscall.INFINITE then Some None
      else Some (Some (syscall.WAIT_TIMEOUT, None))
    | _ => None
    end) reference.

(** A server all of whose instances are taken when the client opens. *)
Definition busy : Kernel :=
  override (fun c =>
    match c with
    | SysCreateFile _ _ _ _ _ _ _ =>
      Some (Some (syscall.InvalidHandle, Some error_pipe_busy))
    | _ => None
    end) reference.

(** No server has created the pipe. *)
Definition not_created : Kernel :=
  override (fun c =>
    match c with
    | SysWaitNamedPipe _ _ =>
      Some (Some (0, Some syscall.ERROR_FILE_NOT_FOUND))
    | _ => None
    end) reference.


(** The peer has closed its end. *)
Definition peer_closed : Kernel :=
  override (fun c =>
    match c with
    | SysReadFile _ _ _ | SysWriteFile _ _ _ =>
      Some (Some (0, Some syscall.ERROR_BROKEN_PIPE))
    | _ => None
    end) reference.

(** The peer closes its end while the request is pending. *)
Definition peer_closes_later : Kernel :=
  override (fun c =>
    match c with
    | SysReadFile _ _ _ | SysWriteFile _ _ _ =>
      Some (Some (0, Some syscall.ERROR_IO_PENDING))
    | SysGetOverlappedResult _ _ _ =>
      Some (Some (0, Some syscall.ERROR_BROKEN_PIPE))
    | _ => None
    end) reference.
End Sim.

Definition pipe_a : string := "\\.\pipe\a".
Definition pipe_b : string := "\\.\pipe\b".

(** The inputs of the runs below. *)
Definition hello : list Byte.byte :=
  [Byte.x68; Byte.x65; Byte.x6c; Byte.x6c; Byte.x6f].

(** The world [Dial] on [pipe_a] leaves on the reference kernel, and the
    connection it returns. *)
Definition dialed : Sim.World :=
  [(SysCreateFile pipe_a 0xC0000000 3 None 3 0x40000000 0, (0x100, None));
   (SysWaitNamedPipe pipe_a 0xFFFFFFFF, (1, None))].

Definition conn_a : PipeConn.t := PipeConn.mk 0x100 pipe_a None None.

(** [conn_a] after [SetDeadline d]. *)
Definition conn_deadline (d : Z) : PipeConn.t :=
  PipeConn.mk 0x100 pipe_a (Some d) (Some d).

(** The world [Listen] on [pipe_a] leaves on the reference kernel, and the
    Listener it returns. *)
Definition listening : Sim.World :=
  [(SysCreateNamedPipe pipe_a 0x40000003 0 255 512 512 0
      (Some NullDaclAttributes), (0x100, None));
   (SysSetSecurityDescriptorDacl 1 0, (1, None));
   (SysInitializeSecurityDescriptor 1, (1, None))].

Definition listener_a : PipeListener.t := PipeListener.mk pipe_a 0x100 false.

(** The world the first [Accept] on [listener_a] leaves. *)
Definition accepted : Sim.World :=
  ((SysCloseHandle 0x104, (1, None))
   :: (SysCancelIoEx 0x100 {| HEvent := 0x104 |}, (1, None))
   :: (SysGetOverlappedResult 0x100 {| HEvent := 0x104 |} true, (0, None))
   :: (SysWaitForSingleObject 0x104 syscall.INFINITE, (0, None))
   :: (SysConnectNamedPipe 0x100 {| HEvent := 0x104 |},
       (0, Some syscall.ERROR_IO_PENDING))
   :: (SysCreateEvent None true true None, (0x104, None)) :: listening)%list.

(* ===================================================================== *)
(** ** More kernels and inputs *)
(* ===================================================================== *)

(** Two more Windows error codes, for the kernels below. *)
Definition ERROR_NOT_ENOUGH_MEMORY : Z := 8.
Definition ERROR_NO_DATA : Z := 232.

Module Scenario.

(** The name is refused as invalid by the creation of the pipe. *)
Definition invalid_name : Sim.Kernel :=
  Sim.override (fun c =>
    match c with
    | SysCreateNamedPipe _ _ _ _ _ _ _ _ =>
      Some (Some (syscall.InvalidHandle, Some error_invalid_name))
    | _ => None
    end) Sim.reference.

(** The security descriptor cannot be initialized. *)
Definition no_security : Sim.Kernel :=
  Sim.override (fun c =>
    match c with
    | SysInitializeSecurityDescriptor _ =>
      Some (Some (0, Some syscall.ERROR_ACCESS_DENIED))
    | _ => None
    end) Sim.reference.

(** No event can be created. *)
Definition no_events : Sim.Kernel :=
  Sim.override (fun c =>
    match c with
    | SysCreateEvent _ _ _ _ => Some (Some (0, Some ERROR_NOT_ENOUGH_MEMORY))
    | _ => None
    end) Sim.reference.

(** A request that is queued and then completes with five bytes. *)
Definition completes_later : Sim.Kernel :=
  Sim.override (fun c =>
    match c with
    | SysReadFile _ _ _ | SysWriteFile _ _ _ =>
      Some (Some (0, Some syscall.ERROR_IO_PENDING))
    | SysGetOverlappedResult _ _ _ => Some (Some (5, None))
    | _ => None
    end) Sim.reference.

(** The client has connected before the server asks. *)
Definition client_first : Sim.Kernel :=
  Sim.override (fun c =>
    match c with
    | SysConnectNamedPipe _ _ => Some (Some (0, Some error_pipe_connected))
    | _ => None
    end) Sim.reference.

(** The client has come and gone: the pipe is being closed. *)
Definition client_gone : Sim.Kernel :=
  Sim.override (fun c =>
    match c with
    | SysConnectNamedPipe _ _ => Some (Some (0, Some ERROR_NO_DATA))
    | _ => None
    end) Sim.reference.
End Scenario.

(** An address with a NUL byte in it. *)
Definition nul_address : string := String Ascii.zero "pipe".

(** The event of the first request made after [dialed] or [listening]. *)
Definition event_1 : Overlapped := {| HEvent := 0x104 |}.

(* ===================================================================== *)
(** ** Running the monad *)
(* ===================================================================== *)

Section Running.
Context {W : Type} `{OS W}.

Lemma bind_Done {A B} (m : M W A) (k : A -> M W B) w a w' :
  m w = Done a w' -> bind m k w = k a w'.
Proof. intros E. unfold bind. rewrite E. reflexivity. Qed.

Lemma bind_inv {A B} (m : M W A) (k : A -> M W B) w b w2 :
  bind m k w = Done b w2 ->
  exists a w1, m w = Done a w1 /\ k a w1 = Done b w2.
Proof.
  unfold bind. destruct (m w) as [a w1| | |]; try discriminate.
  intros E. exists a, w1. split; [reflexivity | exact E].
Qed.

Lemma call_Done c w v e w' :
  sys c w = Some (v, e, w') -> call c w = Done (v, option_map Errno e) w'.
Proof. intros E. unfold call. rewrite E. reflexivity. Qed.

Lemma call_inv c w r w' :
  call c w = Done r w' ->
  exists v e, sys c w = Some (v, e, w') /\ r = (v, option_map Errno e).
Proof.
  unfold call. destruct (sys c w) as [[[v e] w1]|] eqn:E; try discriminate.
  intros [= <- <-]. exists v, e. split; reflexivity.
Qed.

Lemma Now_Done w t e w' :
  sys TimeNow w = Some (t, e, w') -> time.Now w = Done t w'.
Proof.
  intros E. unfold time.Now.
  rewrite (bind_Done _ _ _ _ _ (call_Done _ _ _ _ _ E)). reflexivity.
Qed.

Lemma After_Done d w v e w' :
  sys (TimeAfter d) w = Some (v, e, w') -> time.After d w = Done tt w'.
Proof.
  intros E. unfold time.After.
  rewrite (bind_Done _ _ _ _ _ (call_Done _ _ _ _ _ E)). reflexivity.
Qed.
End Running.

(** [Atoi] reads back what [%d] prints. *)
Lemma Atoi_Sprintf_d (z : Z) : strconv.Atoi (fmt.d z) = (z, false).
Proof.
  unfold strconv.Atoi, fmt.d.
  rewrite NilZero.isi.
  - rewrite DecimalZ.of_to. reflexivity.
  - destruct z; simpl; try discriminate.
    intros [= E]. revert E. apply DecimalPos.Unsigned.to_uint_nonnil.
  - destruct z; simpl; try discriminate.
    intros [= E]. revert E. apply DecimalPos.Unsigned.to_uint_nonnil.
Qed.

(* ===================================================================== *)
(** ** PipeError *)
(* ===================================================================== *)

(** C9. For every PipeError value, whatever the condition it reports
    (the timeouts of [DialTimeout] and of [waitForCompletion] and the bad
    address error included), [Temporary()] returns false. *)
Theorem PipeError_Temporary_false :
  forall e : PipeError.t, PipeError.Temporary e = false.
Proof. intros e. reflexivity. Qed.

(* ===================================================================== *)
(** ** DialTimeout *)
(* ===================================================================== *)

Section DialTimeoutFacts.
Context {W : Type} `{OS W}.

Lemma DialTimeout_loop_expired fuel address deadline now w :
  deadline <= now ->
  DialTimeout_loop fuel address deadline now w =
  Done (None, Some (PipeErr (dialTimedOut address))) w.
Proof.
  intros Hle.
  assert (E : time.Before now deadline = false)
    by (unfold time.Before; apply Z.ltb_ge; exact Hle).
  destruct fuel; simpl; rewrite E; reflexivity.
Qed.

(** C10. For every address and every duration [d <= 0], on a clock that
    does not run backwards, [DialTimeout address d] returns the Timeout
    error naming the address, whose [Timeout()] is true, and the world it
    leaves is the one after its two clock readings: no call was made
    against the pipe. *)
Theorem DialTimeout_nonpositive_duration :
  forall fuel address d w t0 e0 w1 t1 e1 w2,
    d <= 0 ->
    sys TimeNow w = Some (t0, e0, w1) ->
    sys TimeNow w1 = Some (t1, e1, w2) ->
    t0 <= t1 ->
    DialTimeout fuel address d w =
    Done (None,
          Some (PipeErr
                  (PipeError.mk
                     ("Timed out waiting for pipe '" ++ address
                      ++ "' to come available") true))) w2
    /\ PipeError.Timeout (dialTimedOut address) = true.
Proof.
  intros fuel address d w t0 e0 w1 t1 e1 w2 Hd H0 H1 Hmono.
  split; [| reflexivity].
  unfold DialTimeout.
  rewrite (bind_Done _ _ _ _ _ (Now_Done _ _ _ _ H0)).
  rewrite (bind_Done _ _ _ _ _ (Now_Done _ _ _ _ H1)).
  apply DialTimeout_loop_expired. unfold time.Add. lia.
Qed.

Lemma waitNamedPipe_Done name t w v e w' :
  sys (SysWaitNamedPipe name t) w = Some (v, e, w') ->
  waitNamedPipe name t w = Done (option_map Errno e) w'.
Proof.
  intros E. unfold waitNamedPipe.
  rewrite (bind_Done _ _ _ _ _ (call_Done _ _ _ _ _ E)). reflexivity.
Qed.

Lemma waitNamedPipe_inv name t w err w' :
  waitNamedPipe name t w = Done err w' ->
  exists v e, sys (SysWaitNamedPipe name t) w = Some (v, e, w')
              /\ err = option_map Errno e.
Proof.
  unfold waitNamedPipe. intros E.
  apply bind_inv in E. destruct E as ((v & err0) & w1 & E1 & E2).
  apply call_inv in E1. destruct E1 as (v' & e & E1 & [= -> ->]).
  unfold ret in E2. injection E2 as <- <-.
  exists v', e. split; [exact E1 | reflexivity].
Qed.

(** [dial] when the wait for the pipe fails. *)
Lemma dial_wait_error address t w v z w' :
  syscall.hasNUL address = false ->
  sys (SysWaitNamedPipe address t) w = Some (v, Some z, w') ->
  dial address t w =
  Done (None, if z =? error_bad_pathname
              then Some (PipeErr (badAddr address))
              else Some (Errno z)) w'.
Proof.
  intros Hnul Hwait. unfold dial, syscall.UTF16PtrFromString.
  rewrite Hnul.
  rewrite (bind_Done _ _ _ _ _ (waitNamedPipe_Done _ _ _ _ _ _ Hwait)).
  cbn [option_map is_errno].
  destruct (z =? error_bad_pathname); reflexivity.
Qed.

(** The errors of [dial]: the bad address error or a bare errno. *)
Lemma dial_errors address t w r e w' :
  dial address t w = Done (r, Some e) w' ->
  e = PipeErr (badAddr address) \/ exists z, e = Errno z.
Proof.
  unfold dial, syscall.UTF16PtrFromString.
  destruct (syscall.hasNUL address).
  - unfold ret. intros [= <- <- <-]. right. eexists. reflexivity.
  - intros E. apply bind_inv in E. destruct E as (err & w1 & E1 & E2).
    apply waitNamedPipe_inv in E1. destruct E1 as (v & e1 & _ & ->).
    destruct e1 as [z|]; cbn [option_map] in E2.
    + destruct (is_errno (Some (Errno z)) error_bad_pathname);
        unfold ret in E2; injection E2 as <- <-.
      * left. reflexivity.
      * right. eexists. reflexivity.
    + apply bind_inv in E2. destruct E2 as ((hd & err) & w2 & E2 & E3).
      apply call_inv in E2. destruct E2 as (v2 & e2 & _ & [= -> ->]).
      destruct e2 as [z|]; cbn [option_map] in E3; unfold ret in E3.
      * injection E3 as <- <-. right. eexists. reflexivity.
      * discriminate.
Qed.


End DialTimeoutFacts.

(* ===================================================================== *)
(** ** Read and Write *)
(* ===================================================================== *)

Section ConnFacts.
Context {W : Type} `{OS W}.

Lemma newOverlapped_Done w ev w' :
  sys (SysCreateEvent None true true None) w = Some (ev, None, w') ->
  newOverlapped w = Done (Some {| HEvent := ev |}, None) w'.
Proof.
  intros E. unfold newOverlapped, createEvent.
  rewrite (bind_Done _ _ _ _ _ (call_Done _ _ _ _ _ E)). reflexivity.
Qed.

Lemma CloseHandle_Done hd w v e w' :
  sys (SysCloseHandle hd) w = Some (v, e, w') ->
  syscall.CloseHandle hd w = Done (option_map Errno e) w'.
Proof.
  intros E. unfold syscall.CloseHandle.
  rewrite (bind_Done _ _ _ _ _ (call_Done _ _ _ _ _ E)). reflexivity.
Qed.

(** [completeRequest] never hands [ERROR_BROKEN_PIPE] to its caller. *)
Lemma completeRequest_not_broken_pipe c data deadline ov w n e w' :
  completeRequest c data deadline ov w = Done (n, e) w' ->
  e <> Some (Errno syscall.ERROR_BROKEN_PIPE).
Proof.
  unfold completeRequest. intros E.
  apply bind_inv in E. destruct E as (data' & w1 & _ & E).
  cbv zeta in E.
  destruct (is_errno (iodata.err data') syscall.ERROR_BROKEN_PIPE) eqn:B;
    unfold ret in E; injection E as <- <- <-; cbn.
  - discriminate.
  - intros E. rewrite E in B. discriminate.
Qed.

(** A request that is not pending is resolved without any call. *)
Lemma completeRequest_resolved c nr err deadline ov w :
  pending err = false ->
  completeRequest c (iodata.mk nr err) deadline ov w =
  Done (nr, if is_errno err syscall.ERROR_BROKEN_PIPE then Some EOF
            else err) w.
Proof.
  unfold pending. intros P.
  unfold completeRequest, completeRequest_pending. cbn [iodata.err].
  rewrite P. unfold bind, ret. cbn [iodata.err iodata.n].
  destruct (is_errno err syscall.ERROR_BROKEN_PIPE); reflexivity.
Qed.

(** With less than a millisecond left, or none, the wait budget handed
    to [waitForCompletion] is 0. *)
Lemma completeRequest_budget_zero c data d ov w t e w1 :
  pending (iodata.err data) = true ->
  sys TimeNow w = Some (t, e, w1) ->
  time.Sub d t < time.Millisecond ->
  completeRequest c data (Some d) ov w = completeRequest c data None ov w1.
Proof.
  unfold pending. intros P Hnow Hleft.
  unfold completeRequest, completeRequest_pending. rewrite P.
  assert (E : (nowt <- time.Now ;;
               (let timeDiff := time.Sub d nowt in
                if timeDiff >? 0
                then ret (fst (strconv.Atoi
                                 (fmt.d (Z.quot (time.Sub d nowt)
                                                time.Millisecond))))
                else ret 0)) w = Done 0 w1).
  { rewrite (bind_Done _ _ _ _ _ (Now_Done _ _ _ _ Hnow)). cbv zeta.
    destruct (Z.gtb_spec (time.Sub d t) 0) as [Hpos|Hneg];
      [| reflexivity].
    rewrite Atoi_Sprintf_d. cbn [fst].
    rewrite Z.quot_small; [reflexivity | lia]. }
  unfold bind at 1. unfold bind at 1. unfold bind at 1.
  unfold bind at 1 in E. rewrite E. reflexivity.
Qed.

(** The budget 0 is the infinite wait. *)
Lemma waitForCompletion_zero_blocks hd ov w :
  sys (SysWaitForSingleObject (HEvent ov) syscall.INFINITE) w = None ->
  waitForCompletion hd 0 ov w =
  Blocked (SysWaitForSingleObject (HEvent ov) syscall.INFINITE) w.
Proof.
  intros E. unfold waitForCompletion. cbn [Z.eqb].
  unfold syscall.WaitForSingleObject, bind, call. rewrite E. reflexivity.
Qed.

Lemma completeRequest_no_deadline_blocks c data ov w :
  pending (iodata.err data) = true ->
  sys (SysWaitForSingleObject (HEvent ov) syscall.INFINITE) w = None ->
  completeRequest c data None ov w =
  Blocked (SysWaitForSingleObject (HEvent ov) syscall.INFINITE) w.
Proof.
  unfold pending. intros P E.
  unfold completeRequest, completeRequest_pending. rewrite P.
  unfold bind at 1. unfold bind at 1. unfold bind at 1.
  unfold bind at 1. unfold ret at 1.
  rewrite (waitForCompletion_zero_blocks _ _ _ E). reflexivity.
Qed.

(** C1 (as the code has it). A Read or Write whose request is pending
    and whose deadline is reached, passed, or less than a millisecond
    ahead hands the budget 0 to the completion wait, which takes 0 for
    no deadline and waits with [INFINITE]: where that wait does not
    return, the call is parked in it for ever and no Timeout is
    returned. *)
Theorem deadline_reached_waits_forever :
  forall (c : PipeConn.t) (b : list Byte.byte) (d : Z),
    (forall w ev w1 nr w2 t e w3,
        PipeConn.readDeadline c = Some d ->
        sys (SysCreateEvent None true true None) w = Some (ev, None, w1) ->
        sys (SysReadFile (PipeConn.handle c) (List.length b)
               {| HEvent := ev |}) w1
        = Some (nr, Some syscall.ERROR_IO_PENDING, w2) ->
        sys TimeNow w2 = Some (t, e, w3) ->
        time.Sub d t < time.Millisecond ->
        sys (SysWaitForSingleObject ev syscall.INFINITE) w3 = None ->
        PipeConn_Read c b w =
        Blocked (SysWaitForSingleObject ev syscall.INFINITE) w3)
    /\ (forall w ev w1 nr w2 t e w3,
        PipeConn.writeDeadline c = Some d ->
        sys (SysCreateEvent None true true None) w = Some (ev, None, w1) ->
        sys (SysWriteFile (PipeConn.handle c) b {| HEvent := ev |}) w1
        = Some (nr, Some syscall.ERROR_IO_PENDING, w2) ->
        sys TimeNow w2 = Some (t, e, w3) ->
        time.Sub d t < time.Millisecond ->
        sys (SysWaitForSingleObject ev syscall.INFINITE) w3 = None ->
        PipeConn_Write c b w =
        Blocked (SysWaitForSingleObject ev syscall.INFINITE) w3).
Proof.
  intros c b d. split.
  - intros w ev w1 nr w2 t e w3 Hd Hev Hio Hnow Hleft Hwait.
    unfold PipeConn_Read.
    rewrite (bind_Done _ _ _ _ _ (newOverlapped_Done _ _ _ Hev)).
    unfold syscall.ReadFile.
    rewrite (bind_Done _ _ _ _ _ (call_Done _ _ _ _ _ Hio)).
    rewrite Hd. cbn [option_map]. unfold bind at 1.
    rewrite (completeRequest_budget_zero c
               (iodata.mk nr (Some (Errno syscall.ERROR_IO_PENDING)))
               d {| HEvent := ev |} _ _ _ _ eq_refl Hnow Hleft).
    rewrite (completeRequest_no_deadline_blocks c
               (iodata.mk nr (Some (Errno syscall.ERROR_IO_PENDING)))
               {| HEvent := ev |} _ eq_refl Hwait).
    reflexivity.
  - intros w ev w1 nr w2 t e w3 Hd Hev Hio Hnow Hleft Hwait.
    unfold PipeConn_Write.
    rewrite (bind_Done _ _ _ _ _ (newOverlapped_Done _ _ _ Hev)).
    unfold syscall.WriteFile.
    rewrite (bind_Done _ _ _ _ _ (call_Done _ _ _ _ _ Hio)).
    rewrite Hd. cbn [option_map]. unfold bind at 1.
    rewrite (completeRequest_budget_zero c
               (iodata.mk nr (Some (Errno syscall.ERROR_IO_PENDING)))
               d {| HEvent := ev |} _ _ _ _ eq_refl Hnow Hleft).
    rewrite (completeRequest_no_deadline_blocks c
               (iodata.mk nr (Some (Errno syscall.ERROR_IO_PENDING)))
               {| HEvent := ev |} _ eq_refl Hwait).
    reflexivity.
Qed.

(** C4 (amended). [Close] calls [CloseHandle] on the handle and leaves
    the Connection as it was: nothing records that it is closed.  A Read
    or Write that follows issues its request on the same handle value and
    returns what that request reports, [ERROR_BROKEN_PIPE] turned into
    [io.EOF]; the package adds no InvalidState error of its own. *)
Theorem Read_Write_after_Close :
  forall (c : PipeConn.t) (b : list Byte.byte) w x e w0,
    sys (SysCloseHandle (PipeConn.handle c)) w = Some (x, e, w0) ->
    PipeConn_Close c w = Done (c, option_map Errno e) w0
    /\ (forall ev w1 nr er w2 y z w3,
        sys (SysCreateEvent None true true None) w0 = Some (ev, None, w1) ->
        sys (SysReadFile (PipeConn.handle c) (List.length b)
               {| HEvent := ev |}) w1 = Some (nr, er, w2) ->
        pending (option_map Errno er) = false ->
        sys (SysCloseHandle ev) w2 = Some (y, z, w3) ->
        ('(c', _) <- PipeConn_Close c ;; PipeConn_Read c' b) w =
        Done (nr, if is_errno (option_map Errno er)
                       syscall.ERROR_BROKEN_PIPE
                  then Some EOF else option_map Errno er) w3)
    /\ (forall ev w1 nr er w2 y z w3,
        sys (SysCreateEvent None true true None) w0 = Some (ev, None, w1) ->
        sys (SysWriteFile (PipeConn.handle c) b {| HEvent := ev |}) w1
        = Some (nr, er, w2) ->
        pending (option_map Errno er) = false ->
        sys (SysCloseHandle ev) w2 = Some (y, z, w3) ->
        ('(c', _) <- PipeConn_Close c ;; PipeConn_Write c' b) w =
        Done (nr, if is_errno (option_map Errno er)
                       syscall.ERROR_BROKEN_PIPE
                  then Some EOF else option_map Errno er) w3).
Proof.
  intros c b w x e w0 Hclose.
  assert (C : PipeConn_Close c w = Done (c, option_map Errno e) w0).
  { unfold PipeConn_Close.
    rewrite (bind_Done _ _ _ _ _ (CloseHandle_Done _ _ _ _ _ Hclose)).
    reflexivity. }
  split; [exact C | split].
  - intros ev w1 nr er w2 y z w3 Hev Hio Hp Hcl.
    rewrite (bind_Done _ _ _ _ _ C).
    unfold PipeConn_Read.
    rewrite (bind_Done _ _ _ _ _ (newOverlapped_Done _ _ _ Hev)).
    unfold syscall.ReadFile.
    rewrite (bind_Done _ _ _ _ _ (call_Done _ _ _ _ _ Hio)).
    rewrite (bind_Done _ _ _ _ _
               (completeRequest_resolved c nr _ _ _ _ Hp)).
    rewrite (bind_Done _ _ _ _ _ (CloseHandle_Done _ _ _ _ _ Hcl)).
    reflexivity.
  - intros ev w1 nr er w2 y z w3 Hev Hio Hp Hcl.
    rewrite (bind_Done _ _ _ _ _ C).
    unfold PipeConn_Write.
    rewrite (bind_Done _ _ _ _ _ (newOverlapped_Done _ _ _ Hev)).
    unfold syscall.WriteFile.
    rewrite (bind_Done _ _ _ _ _ (call_Done _ _ _ _ _ Hio)).
    rewrite (bind_Done _ _ _ _ _
               (completeRequest_resolved c nr _ _ _ _ Hp)).
    rewrite (bind_Done _ _ _ _ _ (CloseHandle_Done _ _ _ _ _ Hcl)).
    reflexivity.
Qed.
End ConnFacts.

(* ===================================================================== *)
(** ** Listen, Accept and Close *)
(* ===================================================================== *)

(** Take a finished run apart, call by call. *)
Ltac run_inv E :=
  repeat
    (match type of E with
     | bind _ _ _ = Done _ _ =>
       let a := fresh "a" in
       let w := fresh "w" in
       let E1 := fresh "E" in
       apply bind_inv in E; destruct E as (a & w & E1 & E)
     | ret _ _ = Done _ _ => unfold ret in E; injection E as <- <- <-
     | panic _ = Done _ _ => discriminate E
     | (let (_, _) := ?x in _) _ = Done _ _ => destruct x
     | (if ?b then _ else _) _ = Done _ _ => destruct b eqn:?
     | match ?x with _ => _ end _ = Done _ _ => destruct x eqn:?
     end).

Ltac run_inv_all :=
  repeat
    (match goal with
     | E : bind _ _ _ = Done _ _ |- _ =>
       let a := fresh "a" in
       let w := fresh "w" in
       let E1 := fresh "E" in
       apply bind_inv in E; destruct E as (a & w & E1 & E)
     | E : ret _ _ = Done _ _ |- _ => unfold ret in E; injection E as <- <-
     | E : panic _ = Done _ _ |- _ => discriminate E
     | E : (let (_, _) := ?x in _) _ = Done _ _ |- _ => destruct x
     | E : (if ?b then _ else _) _ = Done _ _ |- _ => destruct b eqn:?
     | E : match ?x with _ => _ end _ = Done _ _ |- _ => destruct x eqn:?
     end).

Section ListenerFacts.
Context {W : Type} `{OS W}.

(** [_acceptPipe] assigns to no field of its receiver. *)
Lemma acceptPipe_keeps_receiver l mills w l' r w' :
  PipeListener__acceptPipe l mills w = Done (l', r) w' -> l' = l.
Proof.
  unfold PipeListener__acceptPipe. intros E.
  run_inv E; reflexivity.
Qed.

(** While the stored handle is not 0, a successful [_acceptPipe] returns
    a connection on that very handle. *)
Lemma acceptPipe_reuses_handle l0 mills w l' c e w' :
  PipeListener.handle l0 <> 0 ->
  PipeListener__acceptPipe (Some l0) mills w = Done (l', (Some c, e)) w' ->
  PipeConn.handle c = PipeListener.handle l0 /\ l' = Some l0.
Proof.
  intros Hne E. split; [| exact (acceptPipe_keeps_receiver _ _ _ _ _ _ E)].
  unfold PipeListener__acceptPipe in E.
  destruct (Z.eqb_spec (PipeListener.handle l0) 0) as [E0|_];
    [contradiction |].
  run_inv_all; try discriminate;
    repeat match goal with
           | E : (_, _) = (_, _) |- _ => injection E as <- <-
           | E : Some _ = Some _ |- _ => injection E as <-
           end; reflexivity.
Qed.

(** C2 (amended). [Listen] creates its pipe instance without the
    first-instance tag: the open mode it passes is duplex access with
    overlapped I/O, in which the first-instance bit is clear.  Whatever
    Listeners exist, [Listen] returns a Listener on the handle of that
    instance, not closed, whenever the creation reports no error. *)
Theorem Listen_without_first_instance_tag :
  forall address w sa e w1 hd w2,
    syscall.hasNUL address = false ->
    initSecurityAttributes w = Done (sa, e) w1 ->
    sys (SysCreateNamedPipe address 0x40000003 pipe_type_byte
           pipe_unlimited_instances 512 512 0 sa) w1
    = Some (hd, None, w2) ->
    Listen address w =
    Done (Some (PipeListener.mk address hd false), nil) w2
    /\ 0x40000003 = Z.lor pipe_access_duplex syscall.FILE_FLAG_OVERLAPPED
    /\ Z.land 0x40000003 file_flag_first_pipe_instance = 0.
Proof.
  intros address w sa e w1 hd w2 Hnul Hsa Hcreate.
  split; [| split; reflexivity].
  assert (C : createPipe address false w = Done (hd, None) w2).
  { unfold createPipe, syscall.UTF16PtrFromString. rewrite Hnul.
    cbv zeta.
    change (uint32 (Z.lor pipe_access_duplex syscall.FILE_FLAG_OVERLAPPED))
      with 0x40000003.
    rewrite (bind_Done _ _ _ _ _ Hsa). unfold createNamedPipe.
    exact (call_Done _ _ _ _ _ Hcreate). }
  unfold Listen. rewrite (bind_Done _ _ _ _ _ C). reflexivity.
Qed.

Lemma disconnectNamedPipe_Done hd w v e w' :
  sys (SysDisconnectNamedPipe hd) w = Some (v, e, w') ->
  disconnectNamedPipe hd w = Done (option_map Errno e) w'.
Proof.
  intros E. unfold disconnectNamedPipe.
  rewrite (bind_Done _ _ _ _ _ (call_Done _ _ _ _ _ E)). reflexivity.
Qed.

(** C8 (amended). [Close] on a closed Listener returns no error and
    makes no call.  On an open Listener that holds a handle, [Close]
    calls [disconnectNamedPipe] on it, returns that call's result and
    leaves the Listener closed with an empty slot, in the world the
    disconnect left: the handle itself is not closed.  On an open
    Listener with an empty slot it only sets the flag.  On a closed
    Listener every Accept fails with [EINVAL] and makes no call. *)
Theorem Listener_Close_Accept :
  forall l : PipeListener.t,
    (PipeListener.closed l = true ->
     forall w, PipeListener_Close l w = Done (l, nil) w)
    /\ (PipeListener.closed l = false ->
        PipeListener.handle l <> 0 ->
        forall w v e w',
          sys (SysDisconnectNamedPipe (PipeListener.handle l)) w
          = Some (v, e, w') ->
          PipeListener_Close l w =
          Done (PipeListener.mk (PipeListener.addr l) 0 true,
                option_map Errno e) w')
    /\ (PipeListener.closed l = false ->
        PipeListener.handle l = 0 ->
        forall w,
          PipeListener_Close l w =
          Done (PipeListener.mk (PipeListener.addr l) 0 true, nil) w)
    /\ (PipeListener.closed l = true ->
        forall mills w,
          PipeListener_AcceptTimeout (Some l) mills w =
          Done (Some l, (None, Some (Errno syscall.EINVAL))) w
          /\ PipeListener_AcceptPipe (Some l) w =
             Done (Some l, (None, Some (Errno syscall.EINVAL))) w
          /\ PipeListener_Accept (Some l) w =
             Done (Some l, (None, Some (Errno syscall.EINVAL))) w).
Proof.
  intros l. split; [| split; [| split]].
  - intros Hc w. unfold PipeListener_Close. rewrite Hc. reflexivity.
  - intros Hc Hh w v e w' Hdis. unfold PipeListener_Close. rewrite Hc.
    cbv zeta. cbn [PipeListener.handle PipeListener.addr
                     PipeListener.closed].
    destruct (Z.eqb_spec (PipeListener.handle l) 0) as [E0|_];
      [contradiction |].
    cbn [negb].
    rewrite (bind_Done _ _ _ _ _ (disconnectNamedPipe_Done _ _ _ _ _ Hdis)).
    reflexivity.
  - intros Hc Hh w. unfold PipeListener_Close. rewrite Hc.
    cbv zeta. cbn [PipeListener.handle PipeListener.addr
                     PipeListener.closed].
    rewrite Hh. reflexivity.
  - intros Hc mills w.
    unfold PipeListener_Accept, PipeListener_AcceptTimeout,
      PipeListener_AcceptPipe, PipeListener__acceptPipe.
    rewrite Hc. rewrite orb_true_r. repeat split.
Qed.
End ListenerFacts.

(* ===================================================================== *)
(** ** Dial *)
(* ===================================================================== *)

Section DialFacts.
Context {W : Type} `{OS W}.

(** [dial] when the pipe is there and the open fails. *)
Lemma dial_open_error address t w v w1 hd z w2 :
  syscall.hasNUL address = false ->
  sys (SysWaitNamedPipe address t) w = Some (v, None, w1) ->
  sys (SysCreateFile address 0xC0000000 3 None syscall.OPEN_EXISTING
         syscall.FILE_FLAG_OVERLAPPED 0) w1 = Some (hd, Some z, w2) ->
  dial address t w = Done (None, Some (Errno z)) w2.
Proof.
  intros Hnul Hwait Hopen. unfold dial, syscall.UTF16PtrFromString.
  rewrite Hnul.
  rewrite (bind_Done _ _ _ _ _ (waitNamedPipe_Done _ _ _ _ _ _ Hwait)).
  cbn [option_map]. unfold syscall.CreateFile.
  change (Z.lor syscall.GENERIC_READ syscall.GENERIC_WRITE)
    with 0xC0000000.
  change (uint32 (Z.lor syscall.FILE_SHARE_READ syscall.FILE_SHARE_WRITE))
    with 3.
  rewrite (bind_Done _ _ _ _ _ (call_Done _ _ _ _ _ Hopen)).
  reflexivity.
Qed.

(** The not-yet-created half of the retry: one turn of [Dial] on
    [ERROR_FILE_NOT_FOUND] sleeps 100 ms and goes round again. *)
Lemma Dial_not_created_turn fuel address w v w1 x y w2 :
  syscall.hasNUL address = false ->
  sys (SysWaitNamedPipe address nmpwait_wait_forever) w
  = Some (v, Some syscall.ERROR_FILE_NOT_FOUND, w1) ->
  sys (TimeAfter (100 * time.Millisecond)) w1 = Some (x, y, w2) ->
  Dial (S fuel) address w = Dial fuel address w2.
Proof.
  intros Hnul Hwait Hsleep. cbn [Dial].
  rewrite (bind_Done _ _ _ _ _ (dial_wait_error _ _ _ _ _ _ Hnul Hwait)).
  change (syscall.ERROR_FILE_NOT_FOUND =? error_bad_pathname) with false.
  cbv iota beta. cbn [isPipeNotReady is_errno]. rewrite Z.eqb_refl.
  rewrite (bind_Done _ _ _ _ _ (After_Done _ _ _ _ _ Hsleep)).
  reflexivity.
Qed.

(** C5 (as the code has it). The busy error of the open is a bare
    errno; [isPipeNotReady] looks for [error_pipe_busy] only inside a
    [*os.PathError] and answers false for it, so [Dial] returns it to the
    caller from the turn on which it occurs, in the world the open left:
    no sleep and no retry follow. *)
Theorem Dial_returns_pipe_busy :
  forall fuel address w v w1 hd w2,
    syscall.hasNUL address = false ->
    sys (SysWaitNamedPipe address nmpwait_wait_forever) w
    = Some (v, None, w1) ->
    sys (SysCreateFile address 0xC0000000 3 None syscall.OPEN_EXISTING
           syscall.FILE_FLAG_OVERLAPPED 0) w1
    = Some (hd, Some error_pipe_busy, w2) ->
    isPipeNotReady (Some (Errno error_pipe_busy)) = false
    /\ Dial (S fuel) address w =
       Done (None, Some (Errno error_pipe_busy)) w2.
Proof.
  intros fuel address w v w1 hd w2 Hnul Hwait Hopen.
  split; [reflexivity |]. cbn [Dial].
  rewrite (bind_Done _ _ _ _ _
             (dial_open_error _ _ _ _ _ _ _ _ Hnul Hwait Hopen)).
  reflexivity.
Qed.
End DialFacts.

(* ===================================================================== *)
(** ** Accept and the stored handle *)
(* ===================================================================== *)

Section AcceptFacts.
Context {W : Type} `{OS W}.

(** C3 (as the code has it). [Accept] never empties the slot: a
    Listener whose stored handle is not 0 comes back from every Accept
    with the same stored handle, and every successful Accept returns a
    connection on that stored handle instead of creating an instance. *)
Theorem Accept_keeps_stored_handle :
  forall l0 w l' c e w',
    PipeListener.handle l0 <> 0 ->
    PipeListener_Accept (Some l0) w = Done (l', (Some c, e)) w' ->
    l' = Some l0 /\ PipeConn.handle c = PipeListener.handle l0.
Proof.
  intros l0 w l' c e w' Hne E.
  unfold PipeListener_Accept, PipeListener_AcceptPipe in E.
  apply bind_inv in E. destruct E as ((l1 & (c1 & e1)) & w1 & E1 & E2).
  destruct e1 as [x|]; unfold ret in E2; [discriminate |].
  injection E2 as El Ec Ee Ew. subst l1 c1.
  destruct (acceptPipe_reuses_handle _ _ _ _ _ _ _ Hne E1) as [Hc Hl].
  split; assumption.
Qed.
End AcceptFacts.

(* ===================================================================== *)
(** ** Runs on the simulated kernel *)
(* ===================================================================== *)

(** C10 at [d = -5 ns] on the reference kernel: two clock readings and
    nothing else. *)
Lemma DialTimeout_nonpositive_duration_run :
  -5 <= 0
  /\ DialTimeout (H := Sim.run Sim.reference) 3 pipe_a (-5) [] =
     Done (None, Some (PipeErr (dialTimedOut pipe_a)))
       [(TimeNow, (1000, None)); (TimeNow, (0, None))].
Proof.
  split; [lia |].
  apply (DialTimeout_nonpositive_duration (H := Sim.run Sim.reference)
           3 pipe_a (-5) [] 0 None [(TimeNow, (0, None))] 1000 None
           [(TimeNow, (1000, None)); (TimeNow, (0, None))]);
    [lia | reflexivity | reflexivity | lia].
Defined.


(** C1 on a request that stays pending: with the deadline at the
    reading of the clock (4000), long past (0) or 999999 ns ahead, Read and
    Write are parked in the infinite wait. *)
Lemma deadline_reached_waits_forever_run :
  let parked :=
    Blocked (A := Z * error)
      (SysWaitForSingleObject 0x104 syscall.INFINITE)
      ((TimeNow, (4000, None))
       :: (SysReadFile 0x100 5 {| HEvent := 0x104 |},
           (0, Some syscall.ERROR_IO_PENDING))
       :: (SysCreateEvent None true true None, (0x104, None)) :: dialed) in
  PipeConn_Read (H := Sim.run Sim.never_completes)
    (conn_deadline 4000) hello dialed = parked
  /\ PipeConn_Read (H := Sim.run Sim.never_completes)
       (conn_deadline 0) hello dialed = parked
  /\ PipeConn_Read (H := Sim.run Sim.never_completes)
       (conn_deadline 1003999) hello dialed = parked
  /\ exists w,
      PipeConn_Write (H := Sim.run Sim.never_completes)
        (conn_deadline 4000) hello dialed
      = Blocked (SysWaitForSingleObject 0x104 syscall.INFINITE) w.
Proof.
  cbv zeta. split; [| split; [| split]].
  - eapply (proj1 (deadline_reached_waits_forever
                     (H := Sim.run Sim.never_completes)
                     (conn_deadline 4000) hello 4000)); reflexivity.
  - eapply (proj1 (deadline_reached_waits_forever
                     (H := Sim.run Sim.never_completes)
                     (conn_deadline 0) hello 0)); reflexivity.
  - eapply (proj1 (deadline_reached_waits_forever
                     (H := Sim.run Sim.never_completes)
                     (conn_deadline 1003999) hello 1003999)); reflexivity.
  - eexists.
    eapply (proj2 (deadline_reached_waits_forever
                     (H := Sim.run Sim.never_completes)
                     (conn_deadline 4000) hello 4000)); reflexivity.
Defined.

(** The same request with a full millisecond left: the wait is finite and
    the Timeout is returned. *)
Example deadline_ahead_times_out_run :
  PipeConn_Read (H := Sim.run Sim.never_completes)
    (conn_deadline 1004000) hello dialed
  = Done (0, Some (PipeErr (PipeError.mk "wait timeout" true)))
      ((SysCloseHandle 0x104, (1, None))
       :: (SysCancelIoEx 0x100 {| HEvent := 0x104 |}, (1, None))
       :: (SysWaitForSingleObject 0x104 1, (syscall.WAIT_TIMEOUT, None))
       :: (TimeNow, (4000, None))
       :: (SysReadFile 0x100 5 {| HEvent := 0x104 |},
           (0, Some syscall.ERROR_IO_PENDING))
       :: (SysCreateEvent None true true None, (0x104, None)) :: dialed).
Proof. vm_compute. reflexivity. Qed.

Example conn_deadline_SetDeadline d :
  fst (PipeConn_SetDeadline conn_a d) = conn_deadline d.
Proof. reflexivity. Qed.

(** C2, counterexample. On a kernel that refuses a first-instance
    creation of a name that has an instance, a second [Listen] on the
    address of a live Listener returns a second Listener. *)
Lemma Listen_twice_both_succeed :
  Listen (H := Sim.run Sim.reference) pipe_a [] =
  Done (Some listener_a, None) listening
  /\ PipeListener.closed listener_a = false
  /\ (exists w,
        Listen (H := Sim.run Sim.reference) pipe_a listening =
        Done (Some (PipeListener.mk pipe_a 0x104 false), None) w
        /\ Sim.calls w =
           [SysInitializeSecurityDescriptor 1;
            SysSetSecurityDescriptorDacl 1 0;
            SysCreateNamedPipe pipe_a 0x40000003 0 255 512 512 0
              (Some NullDaclAttributes);
            SysInitializeSecurityDescriptor 1;
            SysSetSecurityDescriptorDacl 1 0;
            SysCreateNamedPipe pipe_a 0x40000003 0 255 512 512 0
              (Some NullDaclAttributes)])
  /\ (exists w,
        createPipe (H := Sim.run Sim.reference) pipe_a true listening =
        Done (syscall.InvalidHandle,
              Some (Errno syscall.ERROR_ACCESS_DENIED)) w).
Proof.
  split; [| split; [| split]].
  - vm_compute. reflexivity.
  - reflexivity.
  - eexists. split; vm_compute; reflexivity.
  - eexists. vm_compute. reflexivity.
Qed.

(** C2 (amended) at the second [Listen] of the run above. *)
Lemma Listen_without_first_instance_tag_run :
  exists w,
    Listen (H := Sim.run Sim.reference) pipe_a listening =
    Done (Some (PipeListener.mk pipe_a 0x104 false), None) w.
Proof.
  eexists.
  eapply (proj1 (Listen_without_first_instance_tag
                   (H := Sim.run Sim.reference)
                   pipe_a listening (Some NullDaclAttributes) None
                   _ 0x104 _ eq_refl eq_refl eq_refl)).
Defined.

(** C3 on the reference kernel: after [Listen], two Accepts succeed, both
    on the handle of the Listener, which still holds it; one instance was
    created in all. *)
Lemma Accept_keeps_stored_handle_run :
  exists c1 w1 c2 w2,
    PipeListener_Accept (H := Sim.run Sim.reference) (Some listener_a)
      listening = Done (Some listener_a, (Some c1, None)) w1
    /\ PipeListener_Accept (H := Sim.run Sim.reference) (Some listener_a)
         w1 = Done (Some listener_a, (Some c2, None)) w2
    /\ PipeConn.handle c1 = PipeListener.handle listener_a
    /\ PipeConn.handle c2 = PipeListener.handle listener_a
    /\ Sim.creations w2 = 1%nat.
Proof.
  do 4 eexists.
  assert (E1 : PipeListener_Accept (H := Sim.run Sim.reference)
                 (Some listener_a) listening
               = Done (Some listener_a, (Some conn_a, None)) accepted)
    by (vm_compute; reflexivity).
  assert (E2 : PipeListener_Accept (H := Sim.run Sim.reference)
                 (Some listener_a) accepted
               = Done (Some listener_a, (Some conn_a, None))
                   (firstn 6 accepted ++ accepted)%list)
    by (vm_compute; reflexivity).
  split; [exact E1 |]. split; [exact E2 |].
  split; [| split].
  - apply (Accept_keeps_stored_handle (H := Sim.run Sim.reference)
             listener_a listening _ _ _ _ ltac:(discriminate) E1).
  - apply (Accept_keeps_stored_handle (H := Sim.run Sim.reference)
             listener_a accepted _ _ _ _ ltac:(discriminate) E2).
  - reflexivity.
Defined.

(** C4, counterexample. A connection is dialed and closed; a second
    connection is dialed and the kernel gives it the handle value just
    released.  Read and Write on the closed connection then succeed, on
    the other connection's pipe. *)
Lemma Read_Write_after_Close_succeed :
  exists w1 w2 w3 w4,
    Dial (H := Sim.run Sim.reference) 1 pipe_a [] =
    Done (Some conn_a, None) dialed
    /\ PipeConn_Close (H := Sim.run Sim.reference) conn_a dialed =
       Done (conn_a, None) w1
    /\ Dial (H := Sim.run Sim.reference) 1 pipe_b w1 =
       Done (Some (PipeConn.mk 0x100 pipe_b None None), None) w2
    /\ PipeConn_Read (H := Sim.run Sim.reference) conn_a hello w2 =
       Done (5, None) w3
    /\ PipeConn_Write (H := Sim.run Sim.reference) conn_a hello w3 =
       Done (5, None) w4.
Proof.
  do 4 eexists.
  split; [vm_compute; reflexivity |].
  split; [vm_compute; reflexivity |].
  split; [vm_compute; reflexivity |].
  split; vm_compute; reflexivity.
Qed.

(** C4 (amended) on the reference kernel, with no other connection
    opened: the handle value is taken by the event of the request, and Read
    returns the errno the kernel reports for it. *)
Lemma Read_Write_after_Close_run :
  exists w,
    ('(c', _) <- PipeConn_Close (H := Sim.run Sim.reference) conn_a ;;
     PipeConn_Read (H := Sim.run Sim.reference) c' hello) dialed
    = Done (0, Some (Errno syscall.ERROR_INVALID_HANDLE)) w.
Proof.
  eexists.
  destruct (Read_Write_after_Close (H := Sim.run Sim.reference)
              conn_a hello dialed 1 None _ eq_refl) as (_ & R & _).
  eapply (R 0x100 _ 0 (Some syscall.ERROR_INVALID_HANDLE));
    reflexivity.
Defined.

(** C5 where every instance is taken at the open. *)
Lemma Dial_returns_pipe_busy_run :
  Dial (H := Sim.run Sim.busy) 7 pipe_a [] =
  Done (None, Some (Errno error_pipe_busy))
    [(SysCreateFile pipe_a 0xC0000000 3 None 3 0x40000000 0,
      (syscall.InvalidHandle, Some error_pipe_busy));
     (SysWaitNamedPipe pipe_a 0xFFFFFFFF, (1, None))].
Proof.
  eapply (proj2 (Dial_returns_pipe_busy (H := Sim.run Sim.busy)
                   6 pipe_a [] 1 _ syscall.InvalidHandle _
                   eq_refl eq_refl eq_refl)).
Defined.

(** The other half of C5: while the pipe has not been created, [Dial]
    goes round, one wait and one 100 ms sleep a turn, and does not
    return. *)
Lemma Dial_retries_while_not_created :
  forall fuel w,
    exists w',
      Dial (H := Sim.run Sim.not_created) fuel pipe_a w = Spin w'
      /\ List.length w' = (List.length w + 2 * fuel)%nat.
Proof.
  induction fuel as [|fuel IH]; intros w.
  - exists w. split; [reflexivity | simpl; lia].
  - destruct (IH ((TimeAfter (100 * time.Millisecond), (1, None))
                  :: (SysWaitNamedPipe pipe_a nmpwait_wait_forever,
                      (0, Some syscall.ERROR_FILE_NOT_FOUND)) :: w))
      as (w' & E & L).
    exists w'. split.
    + rewrite <- E.
      apply (Dial_not_created_turn (H := Sim.run Sim.not_created)
               fuel pipe_a w 0 _ 1 None _ eq_refl eq_refl eq_refl).
    + rewrite L. simpl. lia.
Qed.

(** C8, counterexample. [Close] on a Listener that holds its handle
    disconnects it and empties the slot; no [CloseHandle] is issued, and
    the handle is still open in the kernel. *)
Lemma Listener_Close_leaves_handle_open :
  exists w,
    PipeListener_Close (H := Sim.run Sim.reference) listener_a listening =
    Done (PipeListener.mk pipe_a 0 true, None) w
    /\ Sim.calls w =
       [SysInitializeSecurityDescriptor 1;
        SysSetSecurityDescriptorDacl 1 0;
        SysCreateNamedPipe pipe_a 0x40000003 0 255 512 512 0
          (Some NullDaclAttributes);
        SysDisconnectNamedPipe 0x100]
    /\ Sim.is_open (PipeListener.handle listener_a) w = true.
Proof.
  eexists. split; [vm_compute; reflexivity |].
  split; vm_compute; reflexivity.
Qed.

(** C8 (amended) on the reference kernel: Close, Close again, Accept. *)
Lemma Listener_Close_Accept_run :
  exists l w,
    PipeListener_Close (H := Sim.run Sim.reference) listener_a listening =
    Done (l, None) w
    /\ PipeListener_Close (H := Sim.run Sim.reference) l w = Done (l, None) w
    /\ PipeListener_Accept (H := Sim.run Sim.reference) (Some l) w =
       Done (Some l, (None, Some (Errno syscall.EINVAL))) w.
Proof.
  exists (PipeListener.mk pipe_a 0 true). eexists.
  split; [| split].
  - eapply (proj1 (proj2 (Listener_Close_Accept
                            (H := Sim.run Sim.reference) listener_a))
              eq_refl ltac:(discriminate) listening 1 None).
    reflexivity.
  - apply (proj1 (Listener_Close_Accept (H := Sim.run Sim.reference)
                    (PipeListener.mk pipe_a 0 true)) eq_refl).
  - apply (proj2 (proj2 (proj2 (Listener_Close_Accept
                                  (H := Sim.run Sim.reference)
                                  (PipeListener.mk pipe_a 0 true))))
             eq_refl 0).
Defined.

(* ===================================================================== *)
(** ** More on Dial *)
(* ===================================================================== *)

(** X9. [isPipeNotReady] answers true for exactly two errors: an
    [*os.PathError] whose inner error is [error_pipe_busy], and the bare
    errno [ERROR_FILE_NOT_FOUND].  It is false for nil, for a bare
    [error_pipe_busy] and for a path error around file-not-found. *)
Theorem isPipeNotReady_iff :
  forall err : error,
    isPipeNotReady err = true <->
    (exists op path,
        err = Some (PathError op path (Some (Errno error_pipe_busy))))
    \/ err = Some (Errno syscall.ERROR_FILE_NOT_FOUND).
Proof.
  intros err. split.
  - destruct err as [[z|p|op path inner|s e|]|]; cbn; try discriminate.
    + intros E. apply Z.eqb_eq in E. subst z. right. reflexivity.
    + destruct inner as [[z|p|op' path' inner'|s e|]|]; cbn;
        try discriminate.
      intros E. apply Z.eqb_eq in E. subst z. left. exists op, path.
      reflexivity.
  - intros [(op & path & ->) | ->]; reflexivity.
Qed.

Section MoreDial.
Context {W : Type} `{OS W}.

Lemma dial_success address t w v w1 hd w2 :
  syscall.hasNUL address = false ->
  sys (SysWaitNamedPipe address t) w = Some (v, None, w1) ->
  sys (SysCreateFile address 0xC0000000 3 None syscall.OPEN_EXISTING
         syscall.FILE_FLAG_OVERLAPPED 0) w1 = Some (hd, None, w2) ->
  dial address t w = Done (Some (PipeConn.mk hd address None None), None) w2.
Proof.
  intros Hnul Hwait Hopen. unfold dial, syscall.UTF16PtrFromString.
  rewrite Hnul.
  rewrite (bind_Done _ _ _ _ _ (waitNamedPipe_Done _ _ _ _ _ _ Hwait)).
  cbn [option_map]. unfold syscall.CreateFile.
  change (Z.lor syscall.GENERIC_READ syscall.GENERIC_WRITE)
    with 0xC0000000.
  change (uint32 (Z.lor syscall.FILE_SHARE_READ syscall.FILE_SHARE_WRITE))
    with 3.
  rewrite (bind_Done _ _ _ _ _ (call_Done _ _ _ _ _ Hopen)).
  reflexivity.
Qed.

Lemma dial_NUL address t w :
  syscall.hasNUL address = true ->
  dial address t w = Done (None, Some (Errno syscall.EINVAL)) w.
Proof.
  intros Hnul. unfold dial, syscall.UTF16PtrFromString. rewrite Hnul.
  reflexivity.
Qed.

(** X1. When the wait for the pipe succeeds and the open succeeds, [Dial]
    returns on that turn a connection on the handle the open gave, with
    the dialed address as local and as remote address and no deadline
    set, in the world the open left. *)
Theorem Dial_connects :
  forall fuel address w v w1 hd w2,
    syscall.hasNUL address = false ->
    sys (SysWaitNamedPipe address nmpwait_wait_forever) w
    = Some (v, None, w1) ->
    sys (SysCreateFile address 0xC0000000 3 None syscall.OPEN_EXISTING
           syscall.FILE_FLAG_OVERLAPPED 0) w1 = Some (hd, None, w2) ->
    exists c,
      Dial (S fuel) address w = Done (Some c, None) w2
      /\ PipeConn.handle c = hd
      /\ PipeConn_LocalAddr c = address
      /\ PipeConn_RemoteAddr c = address
      /\ PipeConn.readDeadline c = None
      /\ PipeConn.writeDeadline c = None.
Proof.
  intros fuel address w v w1 hd w2 Hnul Hwait Hopen.
  exists (PipeConn.mk hd address None None).
  split; [| repeat split].
  cbn [Dial].
  rewrite (bind_Done _ _ _ _ _ (dial_success _ _ _ _ _ _ _ Hnul Hwait Hopen)).
  reflexivity.
Qed.


(** X3. An address that holds a NUL byte is refused with [EINVAL] before
    any call is made: by [Dial] on its first turn, by [DialTimeout]'s loop
    while the deadline is ahead, by [createPipe] and by [Listen], all in
    the world they started in. *)
Theorem NUL_address_is_EINVAL :
  forall fuel address w,
    syscall.hasNUL address = true ->
    Dial (S fuel) address w = Done (None, Some (Errno syscall.EINVAL)) w
    /\ (forall deadline now,
          time.Before now deadline = true ->
          DialTimeout_loop (S fuel) address deadline now w =
          Done (None, Some (Errno syscall.EINVAL)) w)
    /\ (forall first,
          createPipe address first w =
          Done (0, Some (Errno syscall.EINVAL)) w)
    /\ Listen address w = Done (None, Some (Errno syscall.EINVAL)) w.
Proof.
  intros fuel address w Hnul.
  assert (C : forall first,
             createPipe address first w =
             Done (0, Some (Errno syscall.EINVAL)) w).
  { intros first. unfold createPipe, syscall.UTF16PtrFromString.
    rewrite Hnul. reflexivity. }
  split; [| split; [| split]].
  - cbn [Dial]. rewrite (bind_Done _ _ _ _ _ (dial_NUL _ _ _ Hnul)).
    reflexivity.
  - intros deadline now Hbefore. cbn [DialTimeout_loop]. rewrite Hbefore.
    cbv zeta. rewrite (bind_Done _ _ _ _ _ (dial_NUL _ _ _ Hnul)).
    reflexivity.
  - exact C.
  - unfold Listen. rewrite (bind_Done _ _ _ _ _ (C false)). reflexivity.
Qed.

(** X4. [Dial] never returns a not-ready error: whatever the budget of
    turns and the environment, an error it returns is the bad address
    error or a bare errno other than [ERROR_FILE_NOT_FOUND], and
    [isPipeNotReady] is false of it. *)
Theorem Dial_never_returns_not_ready :
  forall fuel address w r e w',
    Dial fuel address w = Done (r, Some e) w' ->
    isPipeNotReady (Some e) = false
    /\ (e = PipeErr (badAddr address)
        \/ exists z, e = Errno z /\ z <> syscall.ERROR_FILE_NOT_FOUND).
Proof.
  induction fuel as [|fuel IH]; intros address w r e w' E; cbn [Dial] in E.
  - discriminate.
  - apply bind_inv in E. destruct E as ((conn & err) & w1 & E1 & E2).
    destruct err as [e1|]; [| discriminate].
    destruct (isPipeNotReady (Some e1)) eqn:N.
    + apply bind_inv in E2. destruct E2 as (u & w2 & _ & E2).
      exact (IH _ _ _ _ _ E2).
    + unfold ret in E2. injection E2 as <- <- <-.
      split; [exact N |].
      destruct (dial_errors _ _ _ _ _ _ E1) as [-> | (z & ->)].
      * left. reflexivity.
      * right. exists z. split; [reflexivity |].
        intros ->. discriminate.
Qed.
End MoreDial.

(** While every wait for the pipe answers [ERROR_FILE_NOT_FOUND] and
    every sleep returns. *)
Section NotCreated.
Context {W : Type} `{OS W}.
Variable address : string.
Hypothesis address_ok : syscall.hasNUL address = false.
Hypothesis never_there :
  forall w, exists v w',
    sys (SysWaitNamedPipe address nmpwait_wait_forever) w
    = Some (v, Some syscall.ERROR_FILE_NOT_FOUND, w').
Hypothesis sleep_returns :
  forall w, exists v e w',
    sys (TimeAfter (100 * time.Millisecond)) w = Some (v, e, w').

(** X5. As long as the pipe has not been created, [Dial] does not return:
    for every budget of turns it is still going round when the budget is
    used up. *)
Theorem Dial_spins_while_not_created :
  forall fuel w, exists w', Dial fuel address w = Spin w'.
Proof.
  induction fuel as [|fuel IH]; intros w.
  - exists w. reflexivity.
  - destruct (never_there w) as (v & w1 & Hwait).
    destruct (sleep_returns w1) as (x & y & w2 & Hsleep).
    destruct (IH w2) as (w' & E). exists w'.
    rewrite <- E.
    exact (Dial_not_created_turn fuel address w v w1 x y w2
             address_ok Hwait Hsleep).
Qed.
End NotCreated.

(* ===================================================================== *)
(** ** More on DialTimeout *)
(* ===================================================================== *)

Section MoreDialTimeout.
Context {W : Type} `{OS W}.

(** One turn of the loop on which the pipe is not there yet. *)
Lemma DialTimeout_loop_not_created_turn
    fuel address deadline now w v w1 t e w2 x y w3 now' e' w4 :
  time.Before now deadline = true ->
  syscall.hasNUL address = false ->
  sys (SysWaitNamedPipe address
         (uint32 (Z.quot (time.Sub deadline now) time.Millisecond))) w
  = Some (v, Some syscall.ERROR_FILE_NOT_FOUND, w1) ->
  sys TimeNow w1 = Some (t, e, w2) ->
  sys (TimeAfter (if time.Sub deadline t >? 100 * time.Millisecond
                  then 100 * time.Millisecond
                  else time.Sub deadline t - time.Millisecond)) w2
  = Some (x, y, w3) ->
  sys TimeNow w3 = Some (now', e', w4) ->
  DialTimeout_loop (S fuel) address deadline now w =
  DialTimeout_loop fuel address deadline now' w4.
Proof.
  intros Hbefore Hnul Hwait Hnow Hsleep Hnow'.
  cbn [DialTimeout_loop]. rewrite Hbefore. cbv zeta.
  rewrite (bind_Done _ _ _ _ _ (dial_wait_error _ _ _ _ _ _ Hnul Hwait)).
  change (syscall.ERROR_FILE_NOT_FOUND =? error_bad_pathname) with false.
  cbv iota beta. cbn [isPipeNotReady is_errno].
  change (syscall.ERROR_FILE_NOT_FOUND =? error_sem_timeout) with false.
  rewrite Z.eqb_refl. cbv iota.
  rewrite (bind_Done _ _ _ _ _ (Now_Done _ _ _ _ Hnow)).
  destruct (time.Sub deadline t >? 100 * time.Millisecond);
    rewrite (bind_Done _ _ _ _ _ (After_Done _ _ _ _ _ Hsleep));
    rewrite (bind_Done _ _ _ _ _ (Now_Done _ _ _ _ Hnow'));
    reflexivity.
Qed.

(** X7. On a turn of [DialTimeout] on which the pipe is not there yet
    ([ERROR_FILE_NOT_FOUND]), the wait was given the whole milliseconds
    left to the deadline, and the sleep that follows is 100 ms if more than
    100 ms are left and otherwise what is left less one millisecond; the
    sleep is always shorter than what is left.  The loop then goes on
    with a new reading of the clock. *)
Theorem DialTimeout_retry_sleep :
  forall fuel address deadline now w v w1 t e w2 x y w3 now' e' w4,
    time.Before now deadline = true ->
    syscall.hasNUL address = false ->
    sys (SysWaitNamedPipe address
           (uint32 (Z.quot (time.Sub deadline now) time.Millisecond))) w
    = Some (v, Some syscall.ERROR_FILE_NOT_FOUND, w1) ->
    sys TimeNow w1 = Some (t, e, w2) ->
    let left := time.Sub deadline t in
    let sleep := if left >? 100 * time.Millisecond
                 then 100 * time.Millisecond
                 else left - time.Millisecond in
    sys (TimeAfter sleep) w2 = Some (x, y, w3) ->
    sys TimeNow w3 = Some (now', e', w4) ->
    DialTimeout_loop (S fuel) address deadline now w =
    DialTimeout_loop fuel address deadline now' w4
    /\ sleep < left
    /\ sleep <= 100 * time.Millisecond.
Proof.
  intros fuel address deadline now w v w1 t e w2 x y w3 now' e' w4
         Hbefore Hnul Hwait Hnow left sleep Hsleep Hnow'.
  split.
  - exact (DialTimeout_loop_not_created_turn _ _ _ _ _ _ _ _ _ _ _ _ _ _ _ _
             Hbefore Hnul Hwait Hnow Hsleep Hnow').
  - subst sleep. unfold time.Millisecond in *.
    destruct (Z.gtb_spec left (100 * 1000000)); lia.
Qed.

(** X8. When the deadline is ahead at the second reading of the clock
    and the first attempt succeeds, [DialTimeout] returns the connection;
    the wait for the pipe was given the milliseconds between that reading
    and the deadline, truncated to 32 bits. *)
Theorem DialTimeout_connects :
  forall fuel address timeout w t0 e0 w1 t1 e1 w2 v w3 hd w4,
    syscall.hasNUL address = false ->
    sys TimeNow w = Some (t0, e0, w1) ->
    sys TimeNow w1 = Some (t1, e1, w2) ->
    t1 < t0 + timeout ->
    sys (SysWaitNamedPipe address
           (uint32 (Z.quot (t0 + timeout - t1) time.Millisecond))) w2
    = Some (v, None, w3) ->
    sys (SysCreateFile address 0xC0000000 3 None syscall.OPEN_EXISTING
           syscall.FILE_FLAG_OVERLAPPED 0) w3 = Some (hd, None, w4) ->
    DialTimeout (S fuel) address timeout w =
    Done (Some (PipeConn.mk hd address None None), None) w4.
Proof.
  intros fuel address timeout w t0 e0 w1 t1 e1 w2 v w3 hd w4
         Hnul H0 H1 Hlt Hwait Hopen.
  unfold DialTimeout.
  rewrite (bind_Done _ _ _ _ _ (Now_Done _ _ _ _ H0)).
  rewrite (bind_Done _ _ _ _ _ (Now_Done _ _ _ _ H1)).
  cbv zeta. cbn [DialTimeout_loop].
  assert (B : time.Before t1 (time.Add t0 timeout) = true)
    by (unfold time.Before, time.Add; apply Z.ltb_lt; exact Hlt).
  rewrite B. cbv zeta.
  rewrite (bind_Done _ _ _ _ _ (dial_success _ _ _ _ _ _ _ Hnul Hwait Hopen)).
  reflexivity.
Qed.
End MoreDialTimeout.

(** While no server creates the pipe, on a clock that every reading moves
    forward and no call moves back. *)
Section DeadlineExpires.
Context {W : Type} `{OS W}.
Variable address : string.
Variable clock : W -> Z.
Hypothesis address_ok : syscall.hasNUL address = false.
Hypothesis reading :
  forall w, exists e w',
    sys TimeNow w = Some (clock w, e, w') /\ clock w < clock w'.
Hypothesis never_there :
  forall t w, exists v w',
    sys (SysWaitNamedPipe address t) w
    = Some (v, Some syscall.ERROR_FILE_NOT_FOUND, w')
    /\ clock w <= clock w'.
Hypothesis sleeping :
  forall d w, exists v e w',
    sys (TimeAfter d) w = Some (v, e, w') /\ clock w <= clock w'.

Lemma DialTimeout_loop_expires deadline :
  forall (n fuel : nat) now w,
    deadline - now <= Z.of_nat n ->
    now < clock w ->
    (n <= fuel)%nat ->
    exists w',
      DialTimeout_loop fuel address deadline now w =
      Done (None, Some (PipeErr (dialTimedOut address))) w'.
Proof.
  induction n as [|n IH]; intros fuel now w Hleft Hpast Hfuel.
  - exists w. apply DialTimeout_loop_expired. lia.
  - destruct (Z.le_gt_cases deadline now) as [Hle|Hgt].
    { exists w. apply DialTimeout_loop_expired. exact Hle. }
    destruct fuel as [|fuel]; [lia |].
    destruct (never_there
                (uint32 (Z.quot (time.Sub deadline now) time.Millisecond)) w)
      as (v & w1 & Hwait & C1).
    destruct (reading w1) as (e & w2 & Hnow & C2).
    destruct (sleeping
                (if time.Sub deadline (clock w1) >? 100 * time.Millisecond
                 then 100 * time.Millisecond
                 else time.Sub deadline (clock w1) - time.Millisecond) w2)
      as (x & y & w3 & Hsleep & C3).
    destruct (reading w3) as (e' & w4 & Hnow' & C4).
    assert (B : time.Before now deadline = true)
      by (unfold time.Before; apply Z.ltb_lt; lia).
    rewrite (DialTimeout_loop_not_created_turn _ _ _ _ _ _ _ _ _ _ _ _ _ _ _ _
               B address_ok Hwait Hnow Hsleep Hnow').
    apply IH; lia.
Qed.

(** X6. Where the pipe is never created, [DialTimeout] returns its
    Timeout error for every duration, once the budget of turns covers the
    duration: the loop cannot go round for ever, since every turn reads
    the clock and the deadline is fixed. *)
Theorem DialTimeout_expires :
  forall timeout fuel w,
    (Z.to_nat timeout <= fuel)%nat ->
    exists w',
      DialTimeout fuel address timeout w =
      Done (None, Some (PipeErr (dialTimedOut address))) w'.
Proof.
  intros timeout fuel w Hfuel. unfold DialTimeout.
  destruct (reading w) as (e0 & w1 & H0 & C0).
  destruct (reading w1) as (e1 & w2 & H1 & C1).
  rewrite (bind_Done _ _ _ _ _ (Now_Done _ _ _ _ H0)).
  rewrite (bind_Done _ _ _ _ _ (Now_Done _ _ _ _ H1)).
  cbv zeta.
  apply (DialTimeout_loop_expires _ (Z.to_nat timeout)).
  - unfold time.Add. lia.
  - exact C1.
  - exact Hfuel.
Qed.
End DeadlineExpires.

(* ===================================================================== *)
(** ** More on the completion wait *)
(* ===================================================================== *)

Section MoreWait.
Context {W : Type} `{OS W}.

(** The timeout [waitForCompletion] passes to [WaitForSingleObject]. *)
Lemma waitForCompletion_call hd mills ov w :
  waitForCompletion hd mills ov w =
  ('(s, err) <-
     syscall.WaitForSingleObject (HEvent ov)
       (if mills =? 0 then syscall.INFINITE else uint32 mills) ;;
   match err with
   | Some _ => ret (0, err)
   | None =>
     if s =? syscall.WAIT_OBJECT_0 then getOverlappedResult hd ov true
     else if s =? syscall.WAIT_FAILED then
       ret (0, Some (PipeErr (PipeError.mk
                       ("WaitForSingleObject " ++ fmt.v_nil) false)))
     else if s =? syscall.WAIT_TIMEOUT then
       ret (0, Some (PipeErr (PipeError.mk "wait timeout" true)))
     else
       ret (0, Some (PipeErr (PipeError.mk
                       ("WaitForSingleObject error on " ++ fmt.x s) false)))
   end) w.
Proof. unfold waitForCompletion. destruct (mills =? 0); reflexivity. Qed.

Lemma waitForCompletion_timeout hd mills ov w w1 :
  sys (SysWaitForSingleObject (HEvent ov)
         (if mills =? 0 then syscall.INFINITE else uint32 mills)) w
  = Some (syscall.WAIT_TIMEOUT, None, w1) ->
  waitForCompletion hd mills ov w =
  Done (0, Some (PipeErr (PipeError.mk "wait timeout" true))) w1.
Proof.
  intros E. rewrite waitForCompletion_call.
  unfold syscall.WaitForSingleObject.
  rewrite (bind_Done _ _ _ _ _ (call_Done _ _ _ _ _ E)). reflexivity.
Qed.

Lemma waitForCompletion_signaled hd mills ov w w1 n e w2 :
  sys (SysWaitForSingleObject (HEvent ov)
         (if mills =? 0 then syscall.INFINITE else uint32 mills)) w
  = Some (syscall.WAIT_OBJECT_0, None, w1) ->
  sys (SysGetOverlappedResult hd ov true) w1 = Some (n, e, w2) ->
  waitForCompletion hd mills ov w = Done (n, option_map Errno e) w2.
Proof.
  intros E G. rewrite waitForCompletion_call.
  unfold syscall.WaitForSingleObject.
  rewrite (bind_Done _ _ _ _ _ (call_Done _ _ _ _ _ E)).
  cbn [option_map]. change (syscall.WAIT_OBJECT_0 =? syscall.WAIT_OBJECT_0)
    with true. cbv iota.
  unfold getOverlappedResult. exact (call_Done _ _ _ _ _ G).
Qed.

(** X10. What [waitForCompletion] makes of the wait.  The wait is
    infinite when the budget is 0 and is the budget truncated to 32 bits
    otherwise.  An error of the wait is returned with count 0; status
    [WAIT_TIMEOUT] gives the PipeError "wait timeout", which is a timeout,
    without asking for the result; status [WAIT_OBJECT_0] gives the count
    and error of [getOverlappedResult]; any other status gives a PipeError
    that is not a timeout. *)
Theorem waitForCompletion_outcomes :
  forall hd mills ov w,
    let budget := if mills =? 0 then syscall.INFINITE else uint32 mills in
    (forall s z w1,
        sys (SysWaitForSingleObject (HEvent ov) budget) w
        = Some (s, Some z, w1) ->
        waitForCompletion hd mills ov w = Done (0, Some (Errno z)) w1)
    /\ (forall w1,
          sys (SysWaitForSingleObject (HEvent ov) budget) w
          = Some (syscall.WAIT_TIMEOUT, None, w1) ->
          waitForCompletion hd mills ov w =
          Done (0, Some (PipeErr (PipeError.mk "wait timeout" true))) w1)
    /\ (forall w1 n e w2,
          sys (SysWaitForSingleObject (HEvent ov) budget) w
          = Some (syscall.WAIT_OBJECT_0, None, w1) ->
          sys (SysGetOverlappedResult hd ov true) w1 = Some (n, e, w2) ->
          waitForCompletion hd mills ov w = Done (n, option_map Errno e) w2)
    /\ (forall s w1,
          sys (SysWaitForSingleObject (HEvent ov) budget) w
          = Some (s, None, w1) ->
          s <> syscall.WAIT_OBJECT_0 -> s <> syscall.WAIT_TIMEOUT ->
          exists p,
            waitForCompletion hd mills ov w = Done (0, Some (PipeErr p)) w1
            /\ PipeError.Timeout p = false).
Proof.
  intros hd mills ov w budget. split; [| split; [| split]].
  - intros s z w1 E. rewrite waitForCompletion_call.
    unfold syscall.WaitForSingleObject.
    rewrite (bind_Done _ _ _ _ _ (call_Done _ _ _ _ _ E)). reflexivity.
  - intros w1 E. exact (waitForCompletion_timeout _ _ _ _ _ E).
  - intros w1 n e w2 E G. exact (waitForCompletion_signaled _ _ _ _ _ _ _ _ E G).
  - intros s w1 E H0 H1. rewrite waitForCompletion_call.
    unfold syscall.WaitForSingleObject.
    rewrite (bind_Done _ _ _ _ _ (call_Done _ _ _ _ _ E)).
    cbn [option_map].
    destruct (Z.eqb_spec s syscall.WAIT_OBJECT_0); [contradiction |].
    destruct (s =? syscall.WAIT_FAILED).
    + eexists. split; reflexivity.
    + destruct (Z.eqb_spec s syscall.WAIT_TIMEOUT); [contradiction |].
      eexists. split; reflexivity.
Qed.

(** X11. A PipeError that [waitForCompletion] returns as a timeout comes
    from the wait status [WAIT_TIMEOUT] and from nothing else: the count
    is 0 and the world is the one the wait left. *)
Theorem waitForCompletion_timeout_source :
  forall hd mills ov w n p w',
    waitForCompletion hd mills ov w = Done (n, Some (PipeErr p)) w' ->
    PipeError.Timeout p = true ->
    n = 0
    /\ p = PipeError.mk "wait timeout" true
    /\ sys (SysWaitForSingleObject (HEvent ov)
              (if mills =? 0 then syscall.INFINITE else uint32 mills)) w
       = Some (syscall.WAIT_TIMEOUT, None, w').
Proof.
  intros hd mills ov w n p w' E T. rewrite waitForCompletion_call in E.
  apply bind_inv in E. destruct E as ((s & err) & w1 & E1 & E2).
  unfold syscall.WaitForSingleObject in E1.
  apply call_inv in E1. destruct E1 as (v & e & E1 & [= -> ->]).
  destruct e as [z|]; cbn [option_map] in E2.
  - unfold ret in E2. discriminate.
  - destruct (Z.eqb_spec v syscall.WAIT_OBJECT_0) as [->|_].
    + unfold getOverlappedResult in E2. apply call_inv in E2.
      destruct E2 as (v2 & e2 & _ & E2). destruct e2; discriminate.
    + destruct (v =? syscall.WAIT_FAILED).
      * unfold ret in E2. injection E2 as <- <- <-. discriminate.
      * destruct (Z.eqb_spec v syscall.WAIT_TIMEOUT) as [->|_].
        -- unfold ret in E2. injection E2 as <- <- <-.
           repeat split. exact E1.
        -- unfold ret in E2. injection E2 as <- <- <-. discriminate.
Qed.
End MoreWait.

(* ===================================================================== *)
(** ** More on Read and Write *)
(* ===================================================================== *)

Section MoreConn.
Context {W : Type} `{OS W}.

(** The wait budget [completeRequest] works out, when a full millisecond
    or more is left: the whole milliseconds to the deadline. *)
Lemma completeRequest_budget c data d ov w t e w1 :
  pending (iodata.err data) = true ->
  sys TimeNow w = Some (t, e, w1) ->
  0 < time.Sub d t ->
  completeRequest_pending c data (Some d) ov w =
  ('(n, err) <-
     waitForCompletion (PipeConn.handle c)
       (Z.quot (time.Sub d t) time.Millisecond) ov ;;
   match err with
   | Some e =>
     if net_Error_Timeout e then
       syscall.CancelIoEx (PipeConn.handle c) ov ;;; ret tt
     else ret tt
   | None => ret tt
   end ;;;
   ret (iodata.mk n err)) w1.
Proof.
  unfold pending. intros P Hnow Hleft.
  unfold completeRequest_pending. rewrite P.
  assert (E : (nowt <- time.Now ;;
               (let timeDiff := time.Sub d nowt in
                if timeDiff >? 0
                then ret (fst (strconv.Atoi
                                 (fmt.d (Z.quot (time.Sub d nowt)
                                                time.Millisecond))))
                else ret 0)) w
              = Done (Z.quot (time.Sub d t) time.Millisecond) w1).
  { rewrite (bind_Done _ _ _ _ _ (Now_Done _ _ _ _ Hnow)). cbv zeta.
    destruct (Z.gtb_spec (time.Sub d t) 0) as [_|Hneg]; [| lia].
    rewrite Atoi_Sprintf_d. reflexivity. }
  rewrite (bind_Done _ _ _ _ _ E). reflexivity.
Qed.

Lemma completeRequest_no_deadline c data ov w :
  pending (iodata.err data) = true ->
  completeRequest_pending c data None ov w =
  ('(n, err) <- waitForCompletion (PipeConn.handle c) 0 ov ;;
   match err with
   | Some e =>
     if net_Error_Timeout e then
       syscall.CancelIoEx (PipeConn.handle c) ov ;;; ret tt
     else ret tt
   | None => ret tt
   end ;;;
   ret (iodata.mk n err)) w.
Proof.
  unfold pending. intros P. unfold completeRequest_pending. rewrite P.
  reflexivity.
Qed.

Lemma CancelIoEx_Done hd ov w v e w' :
  sys (SysCancelIoEx hd ov) w = Some (v, e, w') ->
  syscall.CancelIoEx hd ov w = Done (option_map Errno e) w'.
Proof.
  intros E. unfold syscall.CancelIoEx.
  rewrite (bind_Done _ _ _ _ _ (call_Done _ _ _ _ _ E)). reflexivity.
Qed.

(** A pending request whose wait times out: cancelled, count 0. *)
Lemma completeRequest_timeout c nr d ov w t e w1 w2 x y w3 :
  sys TimeNow w = Some (t, e, w1) ->
  time.Millisecond <= time.Sub d t ->
  sys (SysWaitForSingleObject (HEvent ov)
         (uint32 (Z.quot (time.Sub d t) time.Millisecond))) w1
  = Some (syscall.WAIT_TIMEOUT, None, w2) ->
  sys (SysCancelIoEx (PipeConn.handle c) ov) w2 = Some (x, y, w3) ->
  completeRequest c (iodata.mk nr (Some (Errno syscall.ERROR_IO_PENDING)))
    (Some d) ov w =
  Done (0, Some (PipeErr (PipeError.mk "wait timeout" true))) w3.
Proof.
  intros Hnow Hleft Hwait Hcancel. unfold completeRequest.
  assert (Hq : (Z.quot (time.Sub d t) time.Millisecond =? 0) = false).
  { apply Z.eqb_neq. unfold time.Millisecond in *.
    pose proof (Z.quot_le_mono 1000000 (time.Sub d t) 1000000) as Q.
    rewrite Z.quot_same in Q by lia. lia. }
  assert (Hc : (syscall.CancelIoEx (PipeConn.handle c) ov ;;; ret tt) w2
               = Done tt w3).
  { rewrite (bind_Done _ _ _ _ _ (CancelIoEx_Done _ _ _ _ _ _ Hcancel)).
    reflexivity. }
  assert (E : completeRequest_pending c
                (iodata.mk nr (Some (Errno syscall.ERROR_IO_PENDING)))
                (Some d) ov w
              = Done (iodata.mk 0
                        (Some (PipeErr (PipeError.mk "wait timeout" true))))
                  w3).
  { rewrite (completeRequest_budget c
               (iodata.mk nr (Some (Errno syscall.ERROR_IO_PENDING)))
               d ov w t e w1 eq_refl Hnow)
      by (unfold time.Millisecond in *; lia).
    rewrite (bind_Done _ _ _ _ _
               (waitForCompletion_timeout (PipeConn.handle c) _ ov w1 w2
                  ltac:(rewrite Hq; exact Hwait))).
    cbn [net_Error_Timeout PipeError.Timeout PipeError.timeout].
    cbv iota beta.
    rewrite (bind_Done _ _ _ _ _ Hc). reflexivity. }
  rewrite (bind_Done _ _ _ _ _ E). reflexivity.
Qed.

(** A pending request with no deadline that completes. *)
Lemma completeRequest_completes c nr ov w w1 n e w2 :
  sys (SysWaitForSingleObject (HEvent ov) syscall.INFINITE) w
  = Some (syscall.WAIT_OBJECT_0, None, w1) ->
  sys (SysGetOverlappedResult (PipeConn.handle c) ov true) w1
  = Some (n, e, w2) ->
  (forall z, e = Some z -> Errno_Timeout z = false) ->
  completeRequest c (iodata.mk nr (Some (Errno syscall.ERROR_IO_PENDING)))
    None ov w =
  Done (n, if is_errno (option_map Errno e) syscall.ERROR_BROKEN_PIPE
           then Some EOF else option_map Errno e) w2.
Proof.
  intros Hwait Hres Hnt. unfold completeRequest.
  assert (E : completeRequest_pending c
                (iodata.mk nr (Some (Errno syscall.ERROR_IO_PENDING)))
                None ov w
              = Done (iodata.mk n (option_map Errno e)) w2).
  { rewrite (completeRequest_no_deadline c
               (iodata.mk nr (Some (Errno syscall.ERROR_IO_PENDING)))
               ov w eq_refl).
    rewrite (bind_Done _ _ _ _ _
               (waitForCompletion_signaled (PipeConn.handle c) 0 ov
                  w w1 n e w2 Hwait Hres)).
    destruct e as [z|]; cbn [option_map net_Error_Timeout].
    - rewrite (Hnt z eq_refl). reflexivity.
    - reflexivity. }
  rewrite (bind_Done _ _ _ _ _ E). cbv zeta. cbn [iodata.err iodata.n].
  destruct (is_errno (option_map Errno e) syscall.ERROR_BROKEN_PIPE);
    reflexivity.
Qed.

(** X12. A Read or Write whose request is pending, whose deadline is a
    full millisecond or more ahead and whose wait times out: the wait was
    given the whole milliseconds left (truncated to 32 bits), the request
    is cancelled with [CancelIoEx] on the connection's handle, the event is
    closed, and the call returns count 0 with the PipeError "wait
    timeout", whose [Timeout()] is true. *)
Theorem Read_Write_timeout_cancels :
  forall (c : PipeConn.t) (b : list Byte.byte) (d : Z),
    (forall w ev w1 nr w2 t e w3 w4 x y w5 x' y' w6,
        PipeConn.readDeadline c = Some d ->
        sys (SysCreateEvent None true true None) w = Some (ev, None, w1) ->
        sys (SysReadFile (PipeConn.handle c) (List.length b)
               {| HEvent := ev |}) w1
        = Some (nr, Some syscall.ERROR_IO_PENDING, w2) ->
        sys TimeNow w2 = Some (t, e, w3) ->
        time.Millisecond <= time.Sub d t ->
        sys (SysWaitForSingleObject ev
               (uint32 (Z.quot (time.Sub d t) time.Millisecond))) w3
        = Some (syscall.WAIT_TIMEOUT, None, w4) ->
        sys (SysCancelIoEx (PipeConn.handle c) {| HEvent := ev |}) w4
        = Some (x, y, w5) ->
        sys (SysCloseHandle ev) w5 = Some (x', y', w6) ->
        PipeConn_Read c b w =
        Done (0, Some (PipeErr (PipeError.mk "wait timeout" true))) w6)
    /\ (forall w ev w1 nr w2 t e w3 w4 x y w5 x' y' w6,
        PipeConn.writeDeadline c = Some d ->
        sys (SysCreateEvent None true true None) w = Some (ev, None, w1) ->
        sys (SysWriteFile (PipeConn.handle c) b {| HEvent := ev |}) w1
        = Some (nr, Some syscall.ERROR_IO_PENDING, w2) ->
        sys TimeNow w2 = Some (t, e, w3) ->
        time.Millisecond <= time.Sub d t ->
        sys (SysWaitForSingleObject ev
               (uint32 (Z.quot (time.Sub d t) time.Millisecond))) w3
        = Some (syscall.WAIT_TIMEOUT, None, w4) ->
        sys (SysCancelIoEx (PipeConn.handle c) {| HEvent := ev |}) w4
        = Some (x, y, w5) ->
        sys (SysCloseHandle ev) w5 = Some (x', y', w6) ->
        PipeConn_Write c b w =
        Done (0, Some (PipeErr (PipeError.mk "wait timeout" true))) w6).
Proof.
  intros c b d. split.
  - intros w ev w1 nr w2 t e w3 w4 x y w5 x' y' w6
           Hd Hev Hio Hnow Hleft Hwait Hcancel Hclose.
    unfold PipeConn_Read.
    rewrite (bind_Done _ _ _ _ _ (newOverlapped_Done _ _ _ Hev)).
    unfold syscall.ReadFile.
    rewrite (bind_Done _ _ _ _ _ (call_Done _ _ _ _ _ Hio)).
    rewrite Hd. cbn [option_map].
    rewrite (bind_Done _ _ _ _ _
               (completeRequest_timeout c nr d {| HEvent := ev |}
                  _ _ _ _ _ _ _ _ Hnow Hleft Hwait Hcancel)).
    rewrite (bind_Done _ _ _ _ _ (CloseHandle_Done _ _ _ _ _ Hclose)).
    reflexivity.
  - intros w ev w1 nr w2 t e w3 w4 x y w5 x' y' w6
           Hd Hev Hio Hnow Hleft Hwait Hcancel Hclose.
    unfold PipeConn_Write.
    rewrite (bind_Done _ _ _ _ _ (newOverlapped_Done _ _ _ Hev)).
    unfold syscall.WriteFile.
    rewrite (bind_Done _ _ _ _ _ (call_Done _ _ _ _ _ Hio)).
    rewrite Hd. cbn [option_map].
    rewrite (bind_Done _ _ _ _ _
               (completeRequest_timeout c nr d {| HEvent := ev |}
                  _ _ _ _ _ _ _ _ Hnow Hleft Hwait Hcancel)).
    rewrite (bind_Done _ _ _ _ _ (CloseHandle_Done _ _ _ _ _ Hclose)).
    reflexivity.
Qed.

(** X13. A Read or Write with no deadline whose request is pending and
    then completes: the wait is infinite, the count returned is the count
    [getOverlappedResult] reports, with no error, the request is not
    cancelled and the event is closed. *)
Theorem Read_Write_complete_after_wait :
  forall (c : PipeConn.t) (b : list Byte.byte),
    (forall w ev w1 nr w2 w3 n w4 x y w5,
        PipeConn.readDeadline c = None ->
        sys (SysCreateEvent None true true None) w = Some (ev, None, w1) ->
        sys (SysReadFile (PipeConn.handle c) (List.length b)
               {| HEvent := ev |}) w1
        = Some (nr, Some syscall.ERROR_IO_PENDING, w2) ->
        sys (SysWaitForSingleObject ev syscall.INFINITE) w2
        = Some (syscall.WAIT_OBJECT_0, None, w3) ->
        sys (SysGetOverlappedResult (PipeConn.handle c)
               {| HEvent := ev |} true) w3 = Some (n, None, w4) ->
        sys (SysCloseHandle ev) w4 = Some (x, y, w5) ->
        PipeConn_Read c b w = Done (n, None) w5)
    /\ (forall w ev w1 nr w2 w3 n w4 x y w5,
        PipeConn.writeDeadline c = None ->
        sys (SysCreateEvent None true true None) w = Some (ev, None, w1) ->
        sys (SysWriteFile (PipeConn.handle c) b {| HEvent := ev |}) w1
        = Some (nr, Some syscall.ERROR_IO_PENDING, w2) ->
        sys (SysWaitForSingleObject ev syscall.INFINITE) w2
        = Some (syscall.WAIT_OBJECT_0, None, w3) ->
        sys (SysGetOverlappedResult (PipeConn.handle c)
               {| HEvent := ev |} true) w3 = Some (n, None, w4) ->
        sys (SysCloseHandle ev) w4 = Some (x, y, w5) ->
        PipeConn_Write c b w = Done (n, None) w5).
Proof.
  intros c b. split.
  - intros w ev w1 nr w2 w3 n w4 x y w5 Hd Hev Hio Hwait Hres Hclose.
    unfold PipeConn_Read.
    rewrite (bind_Done _ _ _ _ _ (newOverlapped_Done _ _ _ Hev)).
    unfold syscall.ReadFile.
    rewrite (bind_Done _ _ _ _ _ (call_Done _ _ _ _ _ Hio)).
    rewrite Hd. cbn [option_map].
    rewrite (bind_Done _ _ _ _ _
               (completeRequest_completes c nr {| HEvent := ev |}
                  _ _ _ _ _ Hwait Hres ltac:(discriminate))).
    rewrite (bind_Done _ _ _ _ _ (CloseHandle_Done _ _ _ _ _ Hclose)).
    reflexivity.
  - intros w ev w1 nr w2 w3 n w4 x y w5 Hd Hev Hio Hwait Hres Hclose.
    unfold PipeConn_Write.
    rewrite (bind_Done _ _ _ _ _ (newOverlapped_Done _ _ _ Hev)).
    unfold syscall.WriteFile.
    rewrite (bind_Done _ _ _ _ _ (call_Done _ _ _ _ _ Hio)).
    rewrite Hd. cbn [option_map].
    rewrite (bind_Done _ _ _ _ _
               (completeRequest_completes c nr {| HEvent := ev |}
                  _ _ _ _ _ Hwait Hres ltac:(discriminate))).
    rewrite (bind_Done _ _ _ _ _ (CloseHandle_Done _ _ _ _ _ Hclose)).
    reflexivity.
Qed.

(** X14. A Read or Write whose request is complete when it is issued
    returns its count with no error after three calls only (event, request,
    close of the event): the clock is not read and nothing is waited for,
    whatever the deadlines of the connection, passed ones included. *)
Theorem Read_Write_complete_at_once :
  forall (c : PipeConn.t) (b : list Byte.byte) w ev w1 n w2 x y w3,
    sys (SysCreateEvent None true true None) w = Some (ev, None, w1) ->
    sys (SysCloseHandle ev) w2 = Some (x, y, w3) ->
    (sys (SysReadFile (PipeConn.handle c) (List.length b)
            {| HEvent := ev |}) w1 = Some (n, None, w2) ->
     PipeConn_Read c b w = Done (n, None) w3)
    /\ (sys (SysWriteFile (PipeConn.handle c) b {| HEvent := ev |}) w1
        = Some (n, None, w2) ->
        PipeConn_Write c b w = Done (n, None) w3).
Proof.
  intros c b w ev w1 n w2 x y w3 Hev Hclose. split; intros Hio.
  - unfold PipeConn_Read.
    rewrite (bind_Done _ _ _ _ _ (newOverlapped_Done _ _ _ Hev)).
    unfold syscall.ReadFile.
    rewrite (bind_Done _ _ _ _ _ (call_Done _ _ _ _ _ Hio)).
    cbn [option_map].
    rewrite (bind_Done _ _ _ _ _
               (completeRequest_resolved c n None _ _ _ eq_refl)).
    rewrite (bind_Done _ _ _ _ _ (CloseHandle_Done _ _ _ _ _ Hclose)).
    reflexivity.
  - unfold PipeConn_Write.
    rewrite (bind_Done _ _ _ _ _ (newOverlapped_Done _ _ _ Hev)).
    unfold syscall.WriteFile.
    rewrite (bind_Done _ _ _ _ _ (call_Done _ _ _ _ _ Hio)).
    cbn [option_map].
    rewrite (bind_Done _ _ _ _ _
               (completeRequest_resolved c n None _ _ _ eq_refl)).
    rewrite (bind_Done _ _ _ _ _ (CloseHandle_Done _ _ _ _ _ Hclose)).
    reflexivity.
Qed.

(** X15. When the event for the request cannot be created, Read and
    Write return count 0 and the error of [createEvent], in the world that
    call left: no request is issued on the handle. *)
Theorem Read_Write_event_failure :
  forall (c : PipeConn.t) (b : list Byte.byte) w ev z w1,
    sys (SysCreateEvent None true true None) w = Some (ev, Some z, w1) ->
    PipeConn_Read c b w = Done (0, Some (Errno z)) w1
    /\ PipeConn_Write c b w = Done (0, Some (Errno z)) w1.
Proof.
  intros c b w ev z w1 Hev.
  assert (N : newOverlapped w = Done (None, Some (Errno z)) w1).
  { unfold newOverlapped, createEvent.
    rewrite (bind_Done _ _ _ _ _ (call_Done _ _ _ _ _ Hev)). reflexivity. }
  split.
  - unfold PipeConn_Read. rewrite (bind_Done _ _ _ _ _ N). reflexivity.
  - unfold PipeConn_Write. rewrite (bind_Done _ _ _ _ _ N). reflexivity.
Qed.

Lemma newOverlapped_inv w ov err w' :
  newOverlapped w = Done (ov, err) w' ->
  exists ev e,
    sys (SysCreateEvent None true true None) w = Some (ev, e, w')
    /\ err = option_map Errno e
    /\ ov = match e with None => Some {| HEvent := ev |} | Some _ => None end.
Proof.
  unfold newOverlapped, createEvent. intros E.
  apply bind_inv in E. destruct E as ((ev & err0) & w1 & E1 & E2).
  apply call_inv in E1. destruct E1 as (v & e & E1 & [= -> ->]).
  exists v, e. destruct e as [z|]; cbn [option_map] in *;
    unfold ret in E2; injection E2 as <- <- <-; repeat split; exact E1.
Qed.

Lemma CloseHandle_inv hd w err w' :
  syscall.CloseHandle hd w = Done err w' ->
  exists v e, sys (SysCloseHandle hd) w = Some (v, e, w').
Proof.
  unfold syscall.CloseHandle. intros E.
  apply bind_inv in E. destruct E as ((v & err0) & w1 & E1 & E2).
  apply call_inv in E1. destruct E1 as (v' & e & E1 & _).
  unfold ret in E2. injection E2 as <- <-. exists v', e. exact E1.
Qed.

(** X16. The event of a request is closed on every path on which Read
    or Write returns: a Read or Write that returns either failed to create
    its event (and returns that error with count 0 from there), or created
    one and made [CloseHandle] on that event its last call. *)
Theorem Read_Write_close_their_event :
  forall (c : PipeConn.t) (b : list Byte.byte) w r w',
    PipeConn_Read c b w = Done r w' \/ PipeConn_Write c b w = Done r w' ->
    (exists ev z,
        sys (SysCreateEvent None true true None) w = Some (ev, Some z, w')
        /\ r = (0, Some (Errno z)))
    \/ (exists ev w1 w2 v e,
          sys (SysCreateEvent None true true None) w = Some (ev, None, w1)
          /\ sys (SysCloseHandle ev) w2 = Some (v, e, w')).
Proof.
  intros c b w r w' [E|E].
  - unfold PipeConn_Read in E.
    apply bind_inv in E. destruct E as ((ov & err) & w1 & E1 & E2).
    apply newOverlapped_inv in E1. destruct E1 as (ev & e & E1 & -> & ->).
    destruct e as [z|]; cbn [option_map] in E2.
    + unfold ret in E2. injection E2 as <- <-. left. exists ev, z.
      split; [exact E1 | reflexivity].
    + apply bind_inv in E2. destruct E2 as ((n & err) & w2 & _ & E2).
      apply bind_inv in E2. destruct E2 as (r' & w3 & _ & E2).
      apply bind_inv in E2. destruct E2 as (u & w4 & E3 & E2).
      unfold ret in E2. injection E2 as <- <-.
      apply CloseHandle_inv in E3. destruct E3 as (v & e & E3).
      right. exists ev, w1, w3, v, e. split; [exact E1 | exact E3].
  - unfold PipeConn_Write in E.
    apply bind_inv in E. destruct E as ((ov & err) & w1 & E1 & E2).
    apply newOverlapped_inv in E1. destruct E1 as (ev & e & E1 & -> & ->).
    destruct e as [z|]; cbn [option_map] in E2.
    + unfold ret in E2. injection E2 as <- <-. left. exists ev, z.
      split; [exact E1 | reflexivity].
    + apply bind_inv in E2. destruct E2 as ((n & err) & w2 & _ & E2).
      apply bind_inv in E2. destruct E2 as (r' & w3 & _ & E2).
      apply bind_inv in E2. destruct E2 as (u & w4 & E3 & E2).
      unfold ret in E2. injection E2 as <- <-.
      apply CloseHandle_inv in E3. destruct E3 as (v & e & E3).
      right. exists ev, w1, w3, v, e. split; [exact E1 | exact E3].
Qed.

End MoreConn.

(* ===================================================================== *)
(** ** The end of the stream *)
(* ===================================================================== *)

Section EndOfStream.
Context {W : Type} `{OS W}.

(** The wait a pending request gets.  With no deadline the clock is not
    read and the budget is 0; with a deadline [d] the clock is read once,
    [t], and the budget is the whole milliseconds of [d - t] when that is
    positive and 0 otherwise. *)
Lemma completeRequest_pending_wait c data deadline ov w t w1 :
  pending (iodata.err data) = true ->
  match deadline with
  | None => w1 = w
  | Some _ => exists e, sys TimeNow w = Some (t, e, w1)
  end ->
  completeRequest_pending c data deadline ov w =
  ('(n, err) <-
     waitForCompletion (PipeConn.handle c)
       match deadline with
       | None => 0
       | Some d =>
         if time.Sub d t >? 0
         then Z.quot (time.Sub d t) time.Millisecond else 0
       end ov ;;
   match err with
   | Some e =>
     if net_Error_Timeout e then
       syscall.CancelIoEx (PipeConn.handle c) ov ;;; ret tt
     else ret tt
   | None => ret tt
   end ;;;
   ret (iodata.mk n err)) w1.
Proof.
  unfold pending. intros P Hclock.
  unfold completeRequest_pending. rewrite P.
  destruct deadline as [d|].
  - destruct Hclock as [e Hnow].
    assert (E : (nowt <- time.Now ;;
                 (let timeDiff := time.Sub d nowt in
                  if timeDiff >? 0
                  then ret (fst (strconv.Atoi
                                   (fmt.d (Z.quot (time.Sub d nowt)
                                                  time.Millisecond))))
                  else ret 0)) w
                = Done (if time.Sub d t >? 0
                        then Z.quot (time.Sub d t) time.Millisecond
                        else 0) w1).
    { rewrite (bind_Done _ _ _ _ _ (Now_Done _ _ _ _ Hnow)). cbv zeta.
      destruct (time.Sub d t >? 0); [rewrite Atoi_Sprintf_d |];
        reflexivity. }
    rewrite (bind_Done _ _ _ _ _ E). reflexivity.
  - subst w1. reflexivity.
Qed.

(** A pending request whose wait is signaled and whose result the system
    reports as [ERROR_BROKEN_PIPE]. *)
Lemma completeRequest_broken_pipe_after_wait
    c nr p deadline ov w t w1 w2 n w3 w4 :
  p = error_io_incomplete \/ p = syscall.ERROR_IO_PENDING ->
  match deadline with
  | None => w1 = w
  | Some _ => exists e, sys TimeNow w = Some (t, e, w1)
  end ->
  sys (SysWaitForSingleObject (HEvent ov)
         (let mills :=
            match deadline with
            | None => 0
            | Some d =>
              if time.Sub d t >? 0
              then Z.quot (time.Sub d t) time.Millisecond else 0
            end in
          if mills =? 0 then syscall.INFINITE else uint32 mills)) w1
  = Some (syscall.WAIT_OBJECT_0, None, w2) ->
  sys (SysGetOverlappedResult (PipeConn.handle c) ov true) w2
  = Some (n, Some syscall.ERROR_BROKEN_PIPE, w3) ->
  (if Errno_Timeout syscall.ERROR_BROKEN_PIPE
   then exists x y,
       sys (SysCancelIoEx (PipeConn.handle c) ov) w3 = Some (x, y, w4)
   else w4 = w3) ->
  completeRequest c (iodata.mk nr (Some (Errno p))) deadline ov w =
  Done (n, Some EOF) w4.
Proof.
  intros Hp Hclock Hwait Hres Hcancel. cbv zeta in Hwait.
  assert (P : pending (iodata.err (iodata.mk nr (Some (Errno p)))) = true).
  { destruct Hp as [-> | ->]; reflexivity. }
  assert (E : completeRequest_pending c (iodata.mk nr (Some (Errno p)))
                deadline ov w
              = Done (iodata.mk n
                        (Some (Errno syscall.ERROR_BROKEN_PIPE))) w4).
  { rewrite (completeRequest_pending_wait c _ deadline ov w t w1 P Hclock).
    rewrite (bind_Done _ _ _ _ _
               (waitForCompletion_signaled (PipeConn.handle c) _ ov
                  w1 w2 n _ w3 Hwait Hres)).
    cbn [option_map net_Error_Timeout].
    destruct (Errno_Timeout syscall.ERROR_BROKEN_PIPE).
    - destruct Hcancel as (x & y & Hc).
      assert (C : (syscall.CancelIoEx (PipeConn.handle c) ov ;;; ret tt) w3
                  = Done tt w4).
      { rewrite (bind_Done _ _ _ _ _ (CancelIoEx_Done _ _ _ _ _ _ Hc)).
        reflexivity. }
      rewrite (bind_Done _ _ _ _ _ C). reflexivity.
    - subst w4. reflexivity. }
  unfold completeRequest. rewrite (bind_Done _ _ _ _ _ E). reflexivity.
Qed.

(** [newOverlapped] when the event cannot be created. *)
Lemma newOverlapped_error w ev z w' :
  sys (SysCreateEvent None true true None) w = Some (ev, Some z, w') ->
  newOverlapped w = Done (None, Some (Errno z)) w'.
Proof.
  intros E. unfold newOverlapped, createEvent.
  rewrite (bind_Done _ _ _ _ _ (call_Done _ _ _ _ _ E)). reflexivity.
Qed.

(** C7. Read and Write turn the completion status [ERROR_BROKEN_PIPE]
    into [io.EOF], whichever way the system reports it.  The hypotheses
    are the answers of the system calls only.

    (1, 2) The request itself ([ReadFile], [WriteFile]) answers
    [ERROR_BROKEN_PIPE]: nothing is waited for, the event is closed and
    the call returns the count of the request with [io.EOF].

    (3, 4) The request answers that it is pending ([ERROR_IO_PENDING] or
    [error_io_incomplete]), the wait on its event is signaled and
    [GetOverlappedResult] answers [ERROR_BROKEN_PIPE]: the call returns the
    count of that result with [io.EOF].  The wait is the one the code
    makes: the clock is read only when the deadline is set, the budget is
    the whole milliseconds left ([INFINITE] when that is 0), and the
    request is cancelled first in an environment whose [Errno.Timeout]
    answers true for [ERROR_BROKEN_PIPE].

    (5, 6) Whenever the event was created, or its creation failed with
    another error, no Read and no Write that returns returns the bare
    [ERROR_BROKEN_PIPE]. *)
Theorem broken_pipe_is_EOF :
  forall (c : PipeConn.t) (b : list Byte.byte),
    (forall w ev w1 nr w2 x y w3,
        sys (SysCreateEvent None true true None) w = Some (ev, None, w1) ->
        sys (SysReadFile (PipeConn.handle c) (List.length b)
               {| HEvent := ev |}) w1
        = Some (nr, Some syscall.ERROR_BROKEN_PIPE, w2) ->
        sys (SysCloseHandle ev) w2 = Some (x, y, w3) ->
        PipeConn_Read c b w = Done (nr, Some EOF) w3)
    /\ (forall w ev w1 nr w2 x y w3,
        sys (SysCreateEvent None true true None) w = Some (ev, None, w1) ->
        sys (SysWriteFile (PipeConn.handle c) b {| HEvent := ev |}) w1
        = Some (nr, Some syscall.ERROR_BROKEN_PIPE, w2) ->
        sys (SysCloseHandle ev) w2 = Some (x, y, w3) ->
        PipeConn_Write c b w = Done (nr, Some EOF) w3)
    /\ (forall w ev w1 nr p w2 t w3 w4 n w5 w6 x y w7,
        sys (SysCreateEvent None true true None) w = Some (ev, None, w1) ->
        sys (SysReadFile (PipeConn.handle c) (List.length b)
               {| HEvent := ev |}) w1
        = Some (nr, Some p, w2) ->
        p = error_io_incomplete \/ p = syscall.ERROR_IO_PENDING ->
        match PipeConn.readDeadline c with
        | None => w3 = w2
        | Some _ => exists e, sys TimeNow w2 = Some (t, e, w3)
        end ->
        sys (SysWaitForSingleObject ev
               (let mills :=
                  match PipeConn.readDeadline c with
                  | None => 0
                  | Some d =>
                    if time.Sub d t >? 0
                    then Z.quot (time.Sub d t) time.Millisecond else 0
                  end in
                if mills =? 0 then syscall.INFINITE else uint32 mills)) w3
        = Some (syscall.WAIT_OBJECT_0, None, w4) ->
        sys (SysGetOverlappedResult (PipeConn.handle c)
               {| HEvent := ev |} true) w4
        = Some (n, Some syscall.ERROR_BROKEN_PIPE, w5) ->
        (if Errno_Timeout syscall.ERROR_BROKEN_PIPE
         then exists x' y',
             sys (SysCancelIoEx (PipeConn.handle c) {| HEvent := ev |}) w5
             = Some (x', y', w6)
         else w6 = w5) ->
        sys (SysCloseHandle ev) w6 = Some (x, y, w7) ->
        PipeConn_Read c b w = Done (n, Some EOF) w7)
    /\ (forall w ev w1 nr p w2 t w3 w4 n w5 w6 x y w7,
        sys (SysCreateEvent None true true None) w = Some (ev, None, w1) ->
        sys (SysWriteFile (PipeConn.handle c) b {| HEvent := ev |}) w1
        = Some (nr, Some p, w2) ->
        p = error_io_incomplete \/ p = syscall.ERROR_IO_PENDING ->
        match PipeConn.writeDeadline c with
        | None => w3 = w2
        | Some _ => exists e, sys TimeNow w2 = Some (t, e, w3)
        end ->
        sys (SysWaitForSingleObject ev
               (let mills :=
                  match PipeConn.writeDeadline c with
                  | None => 0
                  | Some d =>
                    if time.Sub d t >? 0
                    then Z.quot (time.Sub d t) time.Millisecond else 0
                  end in
                if mills =? 0 then syscall.INFINITE else uint32 mills)) w3
        = Some (syscall.WAIT_OBJECT_0, None, w4) ->
        sys (SysGetOverlappedResult (PipeConn.handle c)
               {| HEvent := ev |} true) w4
        = Some (n, Some syscall.ERROR_BROKEN_PIPE, w5) ->
        (if Errno_Timeout syscall.ERROR_BROKEN_PIPE
         then exists x' y',
             sys (SysCancelIoEx (PipeConn.handle c) {| HEvent := ev |}) w5
             = Some (x', y', w6)
         else w6 = w5) ->
        sys (SysCloseHandle ev) w6 = Some (x, y, w7) ->
        PipeConn_Write c b w = Done (n, Some EOF) w7)
    /\ (forall w ev er w1 n e w',
        sys (SysCreateEvent None true true None) w = Some (ev, er, w1) ->
        er <> Some syscall.ERROR_BROKEN_PIPE ->
        PipeConn_Read c b w = Done (n, e) w' ->
        e <> Some (Errno syscall.ERROR_BROKEN_PIPE))
    /\ (forall w ev er w1 n e w',
        sys (SysCreateEvent None true true None) w = Some (ev, er, w1) ->
        er <> Some syscall.ERROR_BROKEN_PIPE ->
        PipeConn_Write c b w = Done (n, e) w' ->
        e <> Some (Errno syscall.ERROR_BROKEN_PIPE)).
Proof.
  intros c b.
  split; [| split; [| split; [| split; [| split]]]].
  - intros w ev w1 nr w2 x y w3 Hev Hio Hclose.
    unfold PipeConn_Read.
    rewrite (bind_Done _ _ _ _ _ (newOverlapped_Done _ _ _ Hev)).
    unfold syscall.ReadFile.
    rewrite (bind_Done _ _ _ _ _ (call_Done _ _ _ _ _ Hio)).
    cbn [option_map].
    rewrite (bind_Done _ _ _ _ _
               (completeRequest_resolved c nr
                  (Some (Errno syscall.ERROR_BROKEN_PIPE)) _ _ _ eq_refl)).
    rewrite (bind_Done _ _ _ _ _ (CloseHandle_Done _ _ _ _ _ Hclose)).
    reflexivity.
  - intros w ev w1 nr w2 x y w3 Hev Hio Hclose.
    unfold PipeConn_Write.
    rewrite (bind_Done _ _ _ _ _ (newOverlapped_Done _ _ _ Hev)).
    unfold syscall.WriteFile.
    rewrite (bind_Done _ _ _ _ _ (call_Done _ _ _ _ _ Hio)).
    cbn [option_map].
    rewrite (bind_Done _ _ _ _ _
               (completeRequest_resolved c nr
                  (Some (Errno syscall.ERROR_BROKEN_PIPE)) _ _ _ eq_refl)).
    rewrite (bind_Done _ _ _ _ _ (CloseHandle_Done _ _ _ _ _ Hclose)).
    reflexivity.
  - intros w ev w1 nr p w2 t w3 w4 n w5 w6 x y w7
           Hev Hio Hp Hclock Hwait Hres Hcancel Hclose.
    unfold PipeConn_Read.
    rewrite (bind_Done _ _ _ _ _ (newOverlapped_Done _ _ _ Hev)).
    unfold syscall.ReadFile.
    rewrite (bind_Done _ _ _ _ _ (call_Done _ _ _ _ _ Hio)).
    cbn [option_map].
    rewrite (bind_Done _ _ _ _ _
               (completeRequest_broken_pipe_after_wait c nr p
                  (PipeConn.readDeadline c) {| HEvent := ev |}
                  w2 t w3 w4 n w5 w6 Hp Hclock Hwait Hres Hcancel)).
    rewrite (bind_Done _ _ _ _ _ (CloseHandle_Done _ _ _ _ _ Hclose)).
    reflexivity.
  - intros w ev w1 nr p w2 t w3 w4 n w5 w6 x y w7
           Hev Hio Hp Hclock Hwait Hres Hcancel Hclose.
    unfold PipeConn_Write.
    rewrite (bind_Done _ _ _ _ _ (newOverlapped_Done _ _ _ Hev)).
    unfold syscall.WriteFile.
    rewrite (bind_Done _ _ _ _ _ (call_Done _ _ _ _ _ Hio)).
    cbn [option_map].
    rewrite (bind_Done _ _ _ _ _
               (completeRequest_broken_pipe_after_wait c nr p
                  (PipeConn.writeDeadline c) {| HEvent := ev |}
                  w2 t w3 w4 n w5 w6 Hp Hclock Hwait Hres Hcancel)).
    rewrite (bind_Done _ _ _ _ _ (CloseHandle_Done _ _ _ _ _ Hclose)).
    reflexivity.
  - intros w ev er w1 n e w' Hev Hner. unfold PipeConn_Read.
    destruct er as [z|].
    + rewrite (bind_Done _ _ _ _ _ (newOverlapped_error _ _ _ _ Hev)).
      unfold ret. intros [= <- <- <-] [= Hz]. apply Hner. now rewrite Hz.
    + rewrite (bind_Done _ _ _ _ _ (newOverlapped_Done _ _ _ Hev)).
      intros E.
      apply bind_inv in E. destruct E as ([nr err] & w2 & _ & E).
      apply bind_inv in E. destruct E as ([n' e'] & w3 & Hcr & E).
      apply bind_inv in E. destruct E as (u & w4 & _ & E).
      unfold ret in E. injection E as <- <- <-.
      exact (completeRequest_not_broken_pipe _ _ _ _ _ _ _ _ Hcr).
  - intros w ev er w1 n e w' Hev Hner. unfold PipeConn_Write.
    destruct er as [z|].
    + rewrite (bind_Done _ _ _ _ _ (newOverlapped_error _ _ _ _ Hev)).
      unfold ret. intros [= <- <- <-] [= Hz]. apply Hner. now rewrite Hz.
    + rewrite (bind_Done _ _ _ _ _ (newOverlapped_Done _ _ _ Hev)).
      intros E.
      apply bind_inv in E. destruct E as ([nr err] & w2 & _ & E).
      apply bind_inv in E. destruct E as ([n' e'] & w3 & Hcr & E).
      apply bind_inv in E. destruct E as (u & w4 & _ & E).
      unfold ret in E. injection E as <- <- <-.
      exact (completeRequest_not_broken_pipe _ _ _ _ _ _ _ _ Hcr).
Qed.
End EndOfStream.

(** C7 on the simulated kernel, both ways.  The peer has closed its end:
    [ReadFile] and [WriteFile] answer [ERROR_BROKEN_PIPE] at once.  The
    peer closes its end later: the request is queued, the wait on its
    event is signaled and [GetOverlappedResult] answers
    [ERROR_BROKEN_PIPE]; the Read has no deadline and waits without
    limit, the Write has its deadline 5 ms ahead of the clock and waits
    5 ms.  Read and Write return [io.EOF] each time. *)
Lemma broken_pipe_is_EOF_run :
  (PipeConn_Read (H := Sim.run Sim.peer_closed) conn_a hello dialed =
   Done (0, Some EOF)
     ((SysCloseHandle 0x104, (1, None))
      :: (SysReadFile 0x100 5 {| HEvent := 0x104 |},
          (0, Some syscall.ERROR_BROKEN_PIPE))
      :: (SysCreateEvent None true true None, (0x104, None)) :: dialed))
  /\ (PipeConn_Write (H := Sim.run Sim.peer_closed) conn_a hello dialed =
      Done (0, Some EOF)
        ((SysCloseHandle 0x104, (1, None))
         :: (SysWriteFile 0x100 hello {| HEvent := 0x104 |},
             (0, Some syscall.ERROR_BROKEN_PIPE))
         :: (SysCreateEvent None true true None, (0x104, None)) :: dialed))
  /\ (PipeConn_Read (H := Sim.run Sim.peer_closes_later) conn_a hello dialed
      = Done (0, Some EOF)
          ((SysCloseHandle 0x104, (1, None))
           :: (SysGetOverlappedResult 0x100 {| HEvent := 0x104 |} true,
               (0, Some syscall.ERROR_BROKEN_PIPE))
           :: (SysWaitForSingleObject 0x104 syscall.INFINITE,
               (syscall.WAIT_OBJECT_0, None))
           :: (SysReadFile 0x100 5 {| HEvent := 0x104 |},
               (0, Some syscall.ERROR_IO_PENDING))
           :: (SysCreateEvent None true true None, (0x104, None))
           :: dialed))
  /\ (PipeConn_Write (H := Sim.run Sim.peer_closes_later)
        (conn_deadline 5004000) hello dialed
      = Done (0, Some EOF)
          ((SysCloseHandle 0x104, (1, None))
           :: (SysGetOverlappedResult 0x100 {| HEvent := 0x104 |} true,
               (0, Some syscall.ERROR_BROKEN_PIPE))
           :: (SysWaitForSingleObject 0x104 5,
               (syscall.WAIT_OBJECT_0, None))
           :: (TimeNow, (4000, None))
           :: (SysWriteFile 0x100 hello {| HEvent := 0x104 |},
               (0, Some syscall.ERROR_IO_PENDING))
           :: (SysCreateEvent None true true None, (0x104, None))
           :: dialed)).
Proof.
  pose proof (broken_pipe_is_EOF (H := Sim.run Sim.peer_closed)
                conn_a hello) as (Rnow & Wnow & _).
  pose proof (broken_pipe_is_EOF (H := Sim.run Sim.peer_closes_later)
                conn_a hello) as (_ & _ & Rlater & _).
  pose proof (broken_pipe_is_EOF (H := Sim.run Sim.peer_closes_later)
                (conn_deadline 5004000) hello) as (_ & _ & _ & Wlater & _).
  split; [| split; [| split]].
  - eapply (Rnow dialed 0x104 _ 0 _ 1 None); reflexivity.
  - eapply (Wnow dialed 0x104 _ 0 _ 1 None); reflexivity.
  - eapply (Rlater dialed 0x104 _ 0 syscall.ERROR_IO_PENDING _ 0 _ _ 0 _ _
              1 None);
      first [ reflexivity | right; reflexivity ].
  - eapply (Wlater dialed 0x104 _ 0 syscall.ERROR_IO_PENDING _ 4000 _ _ 0
              _ _ 1 None);
      first [ reflexivity | right; reflexivity
            | exists None; reflexivity ].
Defined.

(* ===================================================================== *)
(** ** More on Listen and Accept *)
(* ===================================================================== *)

Section MoreListener.
Context {W : Type} `{OS W}.

Lemma createPipe_call address first w sa e w1 :
  syscall.hasNUL address = false ->
  initSecurityAttributes w = Done (sa, e) w1 ->
  createPipe address first w =
  createNamedPipe address
    (if first then 0x40080003 else 0x40000003)
    pipe_type_byte pipe_unlimited_instances 512 512 0 sa w1.
Proof.
  intros Hnul Hsa. unfold createPipe, syscall.UTF16PtrFromString.
  rewrite Hnul. cbv zeta.
  rewrite (bind_Done _ _ _ _ _ Hsa). destruct first; reflexivity.
Qed.

(** X18. When the creation of the pipe instance fails, [Listen] returns
    no Listener: for [error_invalid_name] the PipeError "Invalid pipe
    address", which is not a timeout, and for any other errno that errno
    itself. *)
Theorem Listen_creation_error :
  forall address w sa e w1 hd z w2,
    syscall.hasNUL address = false ->
    initSecurityAttributes w = Done (sa, e) w1 ->
    sys (SysCreateNamedPipe address 0x40000003 pipe_type_byte
           pipe_unlimited_instances 512 512 0 sa) w1
    = Some (hd, Some z, w2) ->
    Listen address w =
    Done (None,
          if z =? error_invalid_name
          then Some (PipeErr (PipeError.mk
                                ("Invalid pipe address '" ++ address ++ "'.")
                                false))
          else Some (Errno z)) w2.
Proof.
  intros address w sa e w1 hd z w2 Hnul Hsa Hcreate.
  unfold Listen.
  assert (C : createPipe address false w = Done (hd, Some (Errno z)) w2).
  { rewrite (createPipe_call _ _ _ _ _ _ Hnul Hsa). unfold createNamedPipe.
    exact (call_Done _ _ _ _ _ Hcreate). }
  rewrite (bind_Done _ _ _ _ _ C). cbn [is_errno].
  destruct (z =? error_invalid_name); reflexivity.
Qed.

(** X19. [createPipe] does not look at the error of
    [initSecurityAttributes]: when either of the two calls that build the
    security descriptor fails (returns 0), the second is not made after a
    failure of the first, and the pipe instance is created all the same,
    with nil security attributes; [Listen] returns a Listener on it. *)
Theorem Listen_without_security_attributes :
  forall address hd,
    syscall.hasNUL address = false ->
    (forall w e w1 w2,
        sys (SysInitializeSecurityDescriptor SECURITY_DESCRIPTOR_REVISION) w
        = Some (0, e, w1) ->
        sys (SysCreateNamedPipe address 0x40000003 pipe_type_byte
               pipe_unlimited_instances 512 512 0 None) w1
        = Some (hd, None, w2) ->
        Listen address w =
        Done (Some (PipeListener.mk address hd false), None) w2)
    /\ (forall w r e w1 e' w2 w3,
          sys (SysInitializeSecurityDescriptor SECURITY_DESCRIPTOR_REVISION)
              w = Some (r, e, w1) ->
          r <> 0 ->
          sys (SysSetSecurityDescriptorDacl 1 0) w1 = Some (0, e', w2) ->
          sys (SysCreateNamedPipe address 0x40000003 pipe_type_byte
                 pipe_unlimited_instances 512 512 0 None) w2
          = Some (hd, None, w3) ->
          Listen address w =
          Done (Some (PipeListener.mk address hd false), None) w3).
Proof.
  intros address hd Hnul. split.
  - intros w e w1 w2 Hinit Hcreate.
    assert (S : initSecurityAttributes w =
                Done (None,
                      os.NewSyscallError "InitializeSecurityDescriptor"
                        (option_map Errno e)) w1).
    { unfold initSecurityAttributes.
      rewrite (bind_Done _ _ _ _ _ (call_Done _ _ _ _ _ Hinit)).
      reflexivity. }
    unfold Listen.
    assert (C : createPipe address false w = Done (hd, None) w2).
    { rewrite (createPipe_call _ _ _ _ _ _ Hnul S). unfold createNamedPipe.
      exact (call_Done _ _ _ _ _ Hcreate). }
    rewrite (bind_Done _ _ _ _ _ C). reflexivity.
  - intros w r e w1 e' w2 w3 Hinit Hr Hdacl Hcreate.
    assert (S : initSecurityAttributes w =
                Done (None,
                      os.NewSyscallError "SetSecurityDescriptorDacl"
                        (option_map Errno e')) w2).
    { unfold initSecurityAttributes.
      rewrite (bind_Done _ _ _ _ _ (call_Done _ _ _ _ _ Hinit)).
      destruct (Z.eqb_spec r 0); [contradiction |]. cbv zeta.
      rewrite (bind_Done _ _ _ _ _ (call_Done _ _ _ _ _ Hdacl)).
      reflexivity. }
    unfold Listen.
    assert (C : createPipe address false w = Done (hd, None) w3).
    { rewrite (createPipe_call _ _ _ _ _ _ Hnul S). unfold createNamedPipe.
      exact (call_Done _ _ _ _ _ Hcreate). }
    rewrite (bind_Done _ _ _ _ _ C). reflexivity.
Qed.

Lemma connectNamedPipe_Done hd ov w v e w' :
  sys (SysConnectNamedPipe hd ov) w = Some (v, e, w') ->
  connectNamedPipe hd ov w = Done (option_map Errno e) w'.
Proof.
  intros E. unfold connectNamedPipe.
  rewrite (bind_Done _ _ _ _ _ (call_Done _ _ _ _ _ E)). reflexivity.
Qed.

(** [_acceptPipe] on an open Listener that holds a handle: the event, the
    connect block, then the deferred cancel and close. *)
Lemma acceptPipe_run l0 mills w ev w1 r w2 x y w3 x' y' w4 :
  PipeListener.addr l0 <> "" ->
  PipeListener.closed l0 = false ->
  PipeListener.handle l0 <> 0 ->
  ev <> 0 ->
  sys (SysCreateEvent None true true None) w = Some (ev, None, w1) ->
  (err <- connectNamedPipe (PipeListener.handle l0) {| HEvent := ev |} ;;
   match err with
   | None =>
     ret (Some (PipeConn.mk (PipeListener.handle l0) (PipeListener.addr l0)
                  None None), nil)
   | Some _ =>
     if is_errno err error_pipe_connected then
       ret (Some (PipeConn.mk (PipeListener.handle l0)
                    (PipeListener.addr l0) None None), nil)
     else
       err <-
         (if is_errno err error_io_incomplete
             || is_errno err syscall.ERROR_IO_PENDING
          then
            '(_, err) <-
              waitForCompletion (PipeListener.handle l0) mills
                {| HEvent := ev |} ;;
            ret err
          else ret err) ;;
       match err with
       | Some _ => ret (None, err)
       | None =>
         ret (Some (PipeConn.mk (PipeListener.handle l0)
                      (PipeListener.addr l0) None None), nil)
       end
   end) w1 = Done r w2 ->
  sys (SysCancelIoEx (PipeListener.handle l0) {| HEvent := ev |}) w2
  = Some (x, y, w3) ->
  sys (SysCloseHandle ev) w3 = Some (x', y', w4) ->
  PipeListener__acceptPipe (Some l0) mills w = Done (Some l0, r) w4.
Proof.
  intros Haddr Hopen Hhd Hev Hevent Hbody Hcancel Hclose.
  unfold PipeListener__acceptPipe.
  rewrite (proj2 (String.eqb_neq _ _) Haddr). rewrite Hopen. cbn [orb].
  cbv zeta. rewrite (proj2 (Z.eqb_neq _ _) Hhd).
  unfold bind at 1. unfold ret at 1. cbv iota beta.
  rewrite (bind_Done _ _ _ _ _ (newOverlapped_Done _ _ _ Hevent)).
  cbv iota beta.
  rewrite (bind_Done _ _ _ _ _ Hbody).
  cbn [HEvent]. rewrite (proj2 (Z.eqb_neq _ _) Hev). cbn [negb].
  assert (Hc : (syscall.CancelIoEx (PipeListener.handle l0)
                  {| HEvent := ev |} ;;; ret tt) w2 = Done tt w3).
  { rewrite (bind_Done _ _ _ _ _ (CancelIoEx_Done _ _ _ _ _ _ Hcancel)).
    reflexivity. }
  rewrite (bind_Done _ _ _ _ _ Hc).
  rewrite (bind_Done _ _ _ _ _ (CloseHandle_Done _ _ _ _ _ Hclose)).
  reflexivity.
Qed.

(** X20. When the connect request on an open Listener's handle succeeds
    at once or reports [error_pipe_connected] (the client was there
    first), Accept returns a connection on the Listener's handle with the
    Listener's address, after cancelling what is outstanding on the handle
    and closing the event; the Listener is as before. *)
Theorem Accept_client_connected :
  forall l0 w ev w1 v e w2 x y w3 x' y' w4,
    PipeListener.addr l0 <> "" ->
    PipeListener.closed l0 = false ->
    PipeListener.handle l0 <> 0 ->
    ev <> 0 ->
    sys (SysCreateEvent None true true None) w = Some (ev, None, w1) ->
    sys (SysConnectNamedPipe (PipeListener.handle l0) {| HEvent := ev |}) w1
    = Some (v, e, w2) ->
    e = None \/ e = Some error_pipe_connected ->
    sys (SysCancelIoEx (PipeListener.handle l0) {| HEvent := ev |}) w2
    = Some (x, y, w3) ->
    sys (SysCloseHandle ev) w3 = Some (x', y', w4) ->
    exists c,
      PipeListener_Accept (Some l0) w = Done (Some l0, (Some c, None)) w4
      /\ PipeConn.handle c = PipeListener.handle l0
      /\ PipeConn_LocalAddr c = PipeListener_Addr l0
      /\ PipeConn.readDeadline c = None
      /\ PipeConn.writeDeadline c = None.
Proof.
  intros l0 w ev w1 v e w2 x y w3 x' y' w4
         Haddr Hopen Hhd Hev Hevent Hconn He Hcancel Hclose.
  exists (PipeConn.mk (PipeListener.handle l0) (PipeListener.addr l0)
            None None).
  split; [| repeat split].
  unfold PipeListener_Accept, PipeListener_AcceptPipe.
  rewrite (bind_Done _ _ _ _ _
             (acceptPipe_run l0 0 w ev w1 _ w2 x y w3 x' y' w4
                Haddr Hopen Hhd Hev Hevent
                ltac:(rewrite (bind_Done _ _ _ _ _
                                 (connectNamedPipe_Done _ _ _ _ _ _ Hconn));
                      destruct He as [-> | ->]; reflexivity)
                Hcancel Hclose)).
  reflexivity.
Qed.

(** X21. When the connect request is pending, Accept waits for it: with
    [AcceptTimeout mills] for [mills] milliseconds truncated to 32 bits,
    and without bound with [mills = 0] and with [Accept].  When the wait
    ends with the request completed, the connection on the Listener's
    handle is returned. *)
Theorem Accept_waits_for_client :
  forall l0 mills w ev w1 v w2 w3 n w4 x y w5 x' y' w6,
    PipeListener.addr l0 <> "" ->
    PipeListener.closed l0 = false ->
    PipeListener.handle l0 <> 0 ->
    ev <> 0 ->
    sys (SysCreateEvent None true true None) w = Some (ev, None, w1) ->
    sys (SysConnectNamedPipe (PipeListener.handle l0) {| HEvent := ev |}) w1
    = Some (v, Some syscall.ERROR_IO_PENDING, w2) ->
    sys (SysWaitForSingleObject ev
           (if mills =? 0 then syscall.INFINITE else uint32 mills)) w2
    = Some (syscall.WAIT_OBJECT_0, None, w3) ->
    sys (SysGetOverlappedResult (PipeListener.handle l0)
           {| HEvent := ev |} true) w3 = Some (n, None, w4) ->
    sys (SysCancelIoEx (PipeListener.handle l0) {| HEvent := ev |}) w4
    = Some (x, y, w5) ->
    sys (SysCloseHandle ev) w5 = Some (x', y', w6) ->
    PipeListener_AcceptTimeout (Some l0) mills w =
    Done (Some l0,
          (Some (PipeConn.mk (PipeListener.handle l0) (PipeListener.addr l0)
                   None None), None)) w6
    /\ (mills = 0 ->
        PipeListener_Accept (Some l0) w =
        Done (Some l0,
              (Some (PipeConn.mk (PipeListener.handle l0)
                       (PipeListener.addr l0) None None), None)) w6).
Proof.
  intros l0 mills w ev w1 v w2 w3 n w4 x y w5 x' y' w6
         Haddr Hopen Hhd Hev Hevent Hconn Hwait Hres Hcancel Hclose.
  assert (A : PipeListener__acceptPipe (Some l0) mills w =
              Done (Some l0,
                    (Some (PipeConn.mk (PipeListener.handle l0)
                             (PipeListener.addr l0) None None), None)) w6).
  { apply (acceptPipe_run l0 mills w ev w1 _ w4 x y w5 x' y' w6
             Haddr Hopen Hhd Hev Hevent); [| exact Hcancel | exact Hclose].
    rewrite (bind_Done _ _ _ _ _ (connectNamedPipe_Done _ _ _ _ _ _ Hconn)).
    cbn [option_map].
    change (is_errno (Some (Errno syscall.ERROR_IO_PENDING))
              error_pipe_connected) with false.
    change (is_errno (Some (Errno syscall.ERROR_IO_PENDING))
              error_io_incomplete
            || is_errno (Some (Errno syscall.ERROR_IO_PENDING))
                 syscall.ERROR_IO_PENDING) with true.
    cbv iota.
    assert (Hw : ('(_, err) <-
                    waitForCompletion (PipeListener.handle l0) mills
                      {| HEvent := ev |} ;;
                  ret err) w2 = Done None w4).
    { rewrite (bind_Done _ _ _ _ _
                 (waitForCompletion_signaled (PipeListener.handle l0) mills
                    {| HEvent := ev |} w2 w3 n None w4 Hwait Hres)).
      reflexivity. }
    rewrite (bind_Done _ _ _ _ _ Hw). reflexivity. }
  split; [exact A |].
  intros ->. unfold PipeListener_Accept, PipeListener_AcceptPipe.
  rewrite (bind_Done _ _ _ _ _ A). reflexivity.
Qed.

(** X22. When the connect request is pending and the wait for it times
    out, [AcceptTimeout] cancels the request, closes the event and returns
    no connection and the PipeError "wait timeout", whose [Timeout()] is
    true; the Listener keeps its handle for the next Accept. *)
Theorem AcceptTimeout_times_out :
  forall l0 mills w ev w1 v w2 w3 x y w4 x' y' w5,
    PipeListener.addr l0 <> "" ->
    PipeListener.closed l0 = false ->
    PipeListener.handle l0 <> 0 ->
    ev <> 0 ->
    mills <> 0 ->
    sys (SysCreateEvent None true true None) w = Some (ev, None, w1) ->
    sys (SysConnectNamedPipe (PipeListener.handle l0) {| HEvent := ev |}) w1
    = Some (v, Some syscall.ERROR_IO_PENDING, w2) ->
    sys (SysWaitForSingleObject ev (uint32 mills)) w2
    = Some (syscall.WAIT_TIMEOUT, None, w3) ->
    sys (SysCancelIoEx (PipeListener.handle l0) {| HEvent := ev |}) w3
    = Some (x, y, w4) ->
    sys (SysCloseHandle ev) w4 = Some (x', y', w5) ->
    PipeListener_AcceptTimeout (Some l0) mills w =
    Done (Some l0,
          (None, Some (PipeErr (PipeError.mk "wait timeout" true)))) w5.
Proof.
  intros l0 mills w ev w1 v w2 w3 x y w4 x' y' w5
         Haddr Hopen Hhd Hev Hmills Hevent Hconn Hwait Hcancel Hclose.
  apply (acceptPipe_run l0 mills w ev w1 _ w3 x y w4 x' y' w5
           Haddr Hopen Hhd Hev Hevent); [| exact Hcancel | exact Hclose].
  rewrite (bind_Done _ _ _ _ _ (connectNamedPipe_Done _ _ _ _ _ _ Hconn)).
  cbn [option_map].
  change (is_errno (Some (Errno syscall.ERROR_IO_PENDING))
            error_pipe_connected) with false.
  change (is_errno (Some (Errno syscall.ERROR_IO_PENDING))
            error_io_incomplete
          || is_errno (Some (Errno syscall.ERROR_IO_PENDING))
               syscall.ERROR_IO_PENDING) with true.
  cbv iota.
  assert (Hw : sys (SysWaitForSingleObject
                      (HEvent {| HEvent := ev |})
                      (if mills =? 0 then syscall.INFINITE
                       else uint32 mills)) w2
               = Some (syscall.WAIT_TIMEOUT, None, w3)).
  { rewrite (proj2 (Z.eqb_neq _ _) Hmills). exact Hwait. }
  assert (Hr : ('(_, err) <-
                  waitForCompletion (PipeListener.handle l0) mills
                    {| HEvent := ev |} ;;
                ret err) w2
               = Done (Some (PipeErr (PipeError.mk "wait timeout" true)))
                   w3).
  { rewrite (bind_Done _ _ _ _ _
               (waitForCompletion_timeout (PipeListener.handle l0) mills
                  {| HEvent := ev |} w2 w3 Hw)).
    reflexivity. }
  rewrite (bind_Done _ _ _ _ _ Hr). reflexivity.
Qed.

(** X23. When the connect request fails with an errno that is neither
    "connected" nor "pending", Accept returns no connection and that
    errno, without waiting; the request is cancelled and the event closed
    all the same. *)
Theorem Accept_connect_error :
  forall l0 mills w ev w1 v z w2 x y w3 x' y' w4,
    PipeListener.addr l0 <> "" ->
    PipeListener.closed l0 = false ->
    PipeListener.handle l0 <> 0 ->
    ev <> 0 ->
    sys (SysCreateEvent None true true None) w = Some (ev, None, w1) ->
    sys (SysConnectNamedPipe (PipeListener.handle l0) {| HEvent := ev |}) w1
    = Some (v, Some z, w2) ->
    z <> error_pipe_connected ->
    z <> error_io_incomplete ->
    z <> syscall.ERROR_IO_PENDING ->
    sys (SysCancelIoEx (PipeListener.handle l0) {| HEvent := ev |}) w2
    = Some (x, y, w3) ->
    sys (SysCloseHandle ev) w3 = Some (x', y', w4) ->
    PipeListener_AcceptTimeout (Some l0) mills w =
    Done (Some l0, (None, Some (Errno z))) w4.
Proof.
  intros l0 mills w ev w1 v z w2 x y w3 x' y' w4
         Haddr Hopen Hhd Hev Hevent Hconn Hz1 Hz2 Hz3 Hcancel Hclose.
  apply (acceptPipe_run l0 mills w ev w1 _ w2 x y w3 x' y' w4
           Haddr Hopen Hhd Hev Hevent); [| exact Hcancel | exact Hclose].
  rewrite (bind_Done _ _ _ _ _ (connectNamedPipe_Done _ _ _ _ _ _ Hconn)).
  cbn [option_map is_errno].
  rewrite (proj2 (Z.eqb_neq _ _) Hz1), (proj2 (Z.eqb_neq _ _) Hz2),
    (proj2 (Z.eqb_neq _ _) Hz3).
  reflexivity.
Qed.

(** X24. Closing a Listener after a successful Accept disconnects the
    accepted connection's pipe: the Listener still holds the handle it
    gave to the connection, and [Close] calls [disconnectNamedPipe] on
    that handle. *)
Theorem Close_after_Accept_disconnects :
  forall l0 w l' c e w1 v z w2,
    PipeListener.handle l0 <> 0 ->
    PipeListener_Accept (Some l0) w = Done (l', (Some c, e)) w1 ->
    sys (SysDisconnectNamedPipe (PipeConn.handle c)) w1 = Some (v, z, w2) ->
    l' = Some l0
    /\ PipeListener_Close l0 w1 =
       Done (PipeListener.mk (PipeListener.addr l0) 0 true,
             option_map Errno z) w2.
Proof.
  intros l0 w l' c e w1 v z w2 Hhd E Hdis.
  unfold PipeListener_Accept, PipeListener_AcceptPipe in E.
  apply bind_inv in E. destruct E as ((l1 & (c1 & e1)) & w0 & E1 & E2).
  destruct e1 as [x|]; unfold ret in E2; [discriminate |].
  injection E2 as El Ec Ee Ew. subst l1 c1 w0.
  destruct (acceptPipe_reuses_handle _ _ _ _ _ _ _ Hhd E1) as [Hc Hl].
  split; [exact Hl |].
  assert (Hopen : PipeListener.closed l0 = false).
  { destruct (PipeListener.closed l0) eqn:C; [| reflexivity].
    unfold PipeListener__acceptPipe in E1. rewrite C in E1.
    rewrite orb_true_r in E1. unfold ret in E1. discriminate. }
  unfold PipeListener_Close. rewrite Hopen. cbv zeta.
  cbn [PipeListener.handle PipeListener.addr PipeListener.closed].
  rewrite (proj2 (Z.eqb_neq _ _) Hhd). cbn [negb].
  rewrite Hc in Hdis.
  rewrite (bind_Done _ _ _ _ _ (disconnectNamedPipe_Done _ _ _ _ _ Hdis)).
  reflexivity.
Qed.

Lemma bind_Blocked {A B} (m : M W A) (k : A -> M W B) w c w' :
  m w = Blocked c w' -> bind m k w = Blocked c w'.
Proof. intros E. unfold bind. rewrite E. reflexivity. Qed.

(** X25. A timeout of 0 is no timeout: when the connect request is
    pending and the infinite wait does not return, [AcceptTimeout] with 0
    milliseconds is parked in that wait for ever, as [AcceptPipe] and
    [Accept] are. *)
Theorem AcceptTimeout_zero_waits_forever :
  forall l0 w ev w1 v w2,
    PipeListener.addr l0 <> "" ->
    PipeListener.closed l0 = false ->
    PipeListener.handle l0 <> 0 ->
    sys (SysCreateEvent None true true None) w = Some (ev, None, w1) ->
    sys (SysConnectNamedPipe (PipeListener.handle l0) {| HEvent := ev |}) w1
    = Some (v, Some syscall.ERROR_IO_PENDING, w2) ->
    sys (SysWaitForSingleObject ev syscall.INFINITE) w2 = None ->
    PipeListener_AcceptTimeout (Some l0) 0 w =
    Blocked (SysWaitForSingleObject ev syscall.INFINITE) w2
    /\ PipeListener_AcceptPipe (Some l0) w =
       Blocked (SysWaitForSingleObject ev syscall.INFINITE) w2
    /\ PipeListener_Accept (Some l0) w =
       Blocked (SysWaitForSingleObject ev syscall.INFINITE) w2.
Proof.
  intros l0 w ev w1 v w2 Haddr Hopen Hhd Hevent Hconn Hwait.
  assert (A : PipeListener__acceptPipe (Some l0) 0 w =
              Blocked (SysWaitForSingleObject ev syscall.INFINITE) w2).
  { unfold PipeListener__acceptPipe.
    rewrite (proj2 (String.eqb_neq _ _) Haddr). rewrite Hopen. cbn [orb].
    cbv zeta. rewrite (proj2 (Z.eqb_neq _ _) Hhd).
    unfold bind at 1. unfold ret at 1. cbv iota beta.
    rewrite (bind_Done _ _ _ _ _ (newOverlapped_Done _ _ _ Hevent)).
    cbv iota beta.
    apply bind_Blocked.
    rewrite (bind_Done _ _ _ _ _ (connectNamedPipe_Done _ _ _ _ _ _ Hconn)).
    cbn [option_map].
    change (is_errno (Some (Errno syscall.ERROR_IO_PENDING))
              error_pipe_connected) with false.
    change (is_errno (Some (Errno syscall.ERROR_IO_PENDING))
              error_io_incomplete
            || is_errno (Some (Errno syscall.ERROR_IO_PENDING))
                 syscall.ERROR_IO_PENDING) with true.
    cbv iota.
    apply bind_Blocked. apply bind_Blocked.
    exact (waitForCompletion_zero_blocks (PipeListener.handle l0)
             {| HEvent := ev |} w2 Hwait). }
  split; [exact A | split; [exact A |]].
  unfold PipeListener_Accept, PipeListener_AcceptPipe.
  apply bind_Blocked. exact A.
Qed.
End MoreListener.

(* ===================================================================== *)
(** ** More runs on the simulated kernel *)
(* ===================================================================== *)

(** X1 on the reference kernel. *)
Lemma Dial_connects_run :
  exists c,
    Dial (H := Sim.run Sim.reference) 1 pipe_a [] = Done (Some c, None) dialed
    /\ PipeConn.handle c = 0x100
    /\ PipeConn_LocalAddr c = pipe_a.
Proof.
  destruct (Dial_connects (H := Sim.run Sim.reference) 0 pipe_a [] 1 _
              0x100 dialed eq_refl eq_refl eq_refl)
    as (c & E & Hh & Hl & _).
  exists c. repeat split; assumption.
Defined.


(** X3 on an address with a NUL byte. *)
Lemma NUL_address_is_EINVAL_run :
  Dial (H := Sim.run Sim.reference) 1 nul_address [] =
  Done (None, Some (Errno syscall.EINVAL)) []
  /\ Listen (H := Sim.run Sim.reference) nul_address [] =
     Done (None, Some (Errno syscall.EINVAL)) [].
Proof.
  destruct (NUL_address_is_EINVAL (H := Sim.run Sim.reference)
              0 nul_address [] eq_refl) as (D & _ & _ & L).
  split; assumption.
Defined.

(** X4 on the run in which the open finds the server busy. *)
Lemma Dial_never_returns_not_ready_run :
  Dial (H := Sim.run Sim.busy) 7 pipe_a [] =
  Done (None, Some (Errno error_pipe_busy))
    [(SysCreateFile pipe_a 0xC0000000 3 None 3 0x40000000 0,
      (syscall.InvalidHandle, Some error_pipe_busy));
     (SysWaitNamedPipe pipe_a 0xFFFFFFFF, (1, None))]
  /\ isPipeNotReady (Some (Errno error_pipe_busy)) = false.
Proof.
  assert (E : Dial (H := Sim.run Sim.busy) 7 pipe_a [] =
              Done (None, Some (Errno error_pipe_busy))
                [(SysCreateFile pipe_a 0xC0000000 3 None 3 0x40000000 0,
                  (syscall.InvalidHandle, Some error_pipe_busy));
                 (SysWaitNamedPipe pipe_a 0xFFFFFFFF, (1, None))])
    by reflexivity.
  split; [exact E |].
  exact (proj1 (Dial_never_returns_not_ready (H := Sim.run Sim.busy)
                  _ _ _ _ _ _ E)).
Defined.

(** X5 where no server has created the pipe. *)
Lemma Dial_spins_while_not_created_run :
  exists w, Dial (H := Sim.run Sim.not_created) 9 pipe_a [] = Spin w.
Proof.
  apply (Dial_spins_while_not_created (H := Sim.run Sim.not_created)
           pipe_a eq_refl).
  - intros w. do 2 eexists. reflexivity.
  - intros w. do 3 eexists. reflexivity.
Defined.

(** X6 where no server has created the pipe, for 5 microseconds. *)
Lemma DialTimeout_expires_run :
  exists w,
    DialTimeout (H := Sim.run Sim.not_created) 5000 pipe_a 5000 []
    = Done (None, Some (PipeErr (dialTimedOut pipe_a))) w.
Proof.
  apply (DialTimeout_expires (H := Sim.run Sim.not_created)
           pipe_a Sim.clock eq_refl).
  - intros w. do 2 eexists. split; [reflexivity |].
    cbn [Sim.clock]. lia.
  - intros t w. do 2 eexists. split; [reflexivity |].
    cbn [Sim.clock]. lia.
  - intros d w. do 3 eexists. split; [reflexivity |].
    cbn [Sim.clock]. lia.
  - lia.
Defined.

(** X7 on the first turn of a dial for 250 ms where no server has
    created the pipe: 249 ms to wait, then a sleep of 100 ms. *)
Lemma DialTimeout_retry_sleep_run :
  exists w,
    DialTimeout_loop (H := Sim.run Sim.not_created) 1 pipe_a 250000000 1000
      [(TimeNow, (1000, None)); (TimeNow, (0, None))] = Spin w
    /\ Sim.calls w =
       [TimeNow; TimeNow; SysWaitNamedPipe pipe_a 249; TimeNow;
        TimeAfter 100000000; TimeNow].
Proof.
  eexists.
  destruct (DialTimeout_retry_sleep (H := Sim.run Sim.not_created)
              0 pipe_a 250000000 1000
              [(TimeNow, (1000, None)); (TimeNow, (0, None))]
              0 _ 3000 None _ 1 None _ 100004000 None _
              eq_refl eq_refl eq_refl eq_refl eq_refl eq_refl)
    as (E & _).
  rewrite E. split; reflexivity.
Defined.

(** X8 on the reference kernel, for 250 ms. *)
Lemma DialTimeout_connects_run :
  exists w,
    DialTimeout (H := Sim.run Sim.reference) 1 pipe_a 250000000 [] =
    Done (Some (PipeConn.mk 0x100 pipe_a None None), None) w
    /\ Sim.calls w =
       [TimeNow; TimeNow; SysWaitNamedPipe pipe_a 249;
        SysCreateFile pipe_a 0xC0000000 3 None 3 0x40000000 0].
Proof.
  eexists. split.
  - eapply (DialTimeout_connects (H := Sim.run Sim.reference)
              0 pipe_a 250000000 [] 0 None _ 1000 None _ 1 _ 0x100 _
              eq_refl eq_refl eq_refl eq_refl eq_refl).
    reflexivity.
  - reflexivity.
Defined.

(** X10 and X11 on a wait of 7 ms for a request that stays pending. *)
Lemma waitForCompletion_outcomes_run :
  waitForCompletion (H := Sim.run Sim.never_completes) 0x100 7 event_1 dialed
  = Done (0, Some (PipeErr (PipeError.mk "wait timeout" true)))
      ((SysWaitForSingleObject 0x104 7, (syscall.WAIT_TIMEOUT, None))
       :: dialed).
Proof.
  apply (proj1 (proj2 (waitForCompletion_outcomes
                         (H := Sim.run Sim.never_completes)
                         0x100 7 event_1 dialed))).
  reflexivity.
Defined.

Lemma waitForCompletion_timeout_source_run :
  @sys _ (Sim.run Sim.never_completes)
    (SysWaitForSingleObject 0x104 7) dialed
  = Some (syscall.WAIT_TIMEOUT, None,
          (SysWaitForSingleObject 0x104 7, (syscall.WAIT_TIMEOUT, None))
          :: dialed).
Proof.
  apply (waitForCompletion_timeout_source
           (H := Sim.run Sim.never_completes)
           0x100 7 event_1 dialed 0 (PipeError.mk "wait timeout" true) _
           eq_refl eq_refl).
Defined.

(** X12 on a request that stays pending, with a millisecond left. *)
Lemma Read_Write_timeout_cancels_run :
  exists w,
    PipeConn_Read (H := Sim.run Sim.never_completes)
      (conn_deadline 1004000) hello dialed
    = Done (0, Some (PipeErr (PipeError.mk "wait timeout" true))) w
    /\ Sim.calls w =
       (Sim.calls dialed ++
        [SysCreateEvent None true true None;
         SysReadFile 0x100 5 event_1;
         TimeNow;
         SysWaitForSingleObject 0x104 1;
         SysCancelIoEx 0x100 event_1;
         SysCloseHandle 0x104])%list.
Proof.
  eexists. split.
  - eapply (proj1 (Read_Write_timeout_cancels
                     (H := Sim.run Sim.never_completes)
                     (conn_deadline 1004000) hello 1004000)
              dialed 0x104 _ 0 _ 4000 None _ _ 1 None _ 1 None _
              eq_refl eq_refl eq_refl eq_refl);
      [unfold time.Sub, time.Millisecond; lia
      | reflexivity | reflexivity | reflexivity].
  - reflexivity.
Defined.

(** X13 on a request that is queued and then completes. *)
Lemma Read_Write_complete_after_wait_run :
  exists w,
    PipeConn_Read (H := Sim.run Scenario.completes_later) conn_a hello dialed
    = Done (5, None) w
    /\ Sim.calls w =
       (Sim.calls dialed ++
        [SysCreateEvent None true true None;
         SysReadFile 0x100 5 event_1;
         SysWaitForSingleObject 0x104 syscall.INFINITE;
         SysGetOverlappedResult 0x100 event_1 true;
         SysCloseHandle 0x104])%list.
Proof.
  eexists. split.
  - eapply (proj1 (Read_Write_complete_after_wait
                     (H := Sim.run Scenario.completes_later) conn_a hello)
              dialed 0x104 _ 0 _ _ 5 _ 1 None _
              eq_refl eq_refl eq_refl eq_refl eq_refl).
    reflexivity.
  - reflexivity.
Defined.

(** X14 on the reference kernel, with a deadline long passed. *)
Lemma Read_Write_complete_at_once_run :
  exists w,
    PipeConn_Read (H := Sim.run Sim.reference) (conn_deadline 0) hello dialed
    = Done (5, None) w
    /\ Sim.calls w =
       (Sim.calls dialed ++
        [SysCreateEvent None true true None;
         SysReadFile 0x100 5 event_1;
         SysCloseHandle 0x104])%list.
Proof.
  eexists. split.
  - eapply (proj1 (Read_Write_complete_at_once
                     (H := Sim.run Sim.reference) (conn_deadline 0) hello
                     dialed 0x104 _ 5
                     ((SysReadFile 0x100 5 event_1, (5, None))
                      :: (SysCreateEvent None true true None, (0x104, None))
                      :: dialed)
                     1 None _ eq_refl eq_refl)).
    reflexivity.
  - reflexivity.
Defined.

(** X15 where no event can be created. *)
Lemma Read_Write_event_failure_run :
  PipeConn_Write (H := Sim.run Scenario.no_events) conn_a hello dialed
  = Done (0, Some (Errno ERROR_NOT_ENOUGH_MEMORY))
      ((SysCreateEvent None true true None,
        (0, Some ERROR_NOT_ENOUGH_MEMORY)) :: dialed).
Proof.
  apply (proj2 (Read_Write_event_failure (H := Sim.run Scenario.no_events)
                  conn_a hello dialed 0 ERROR_NOT_ENOUGH_MEMORY _
                  eq_refl)).
Defined.

(** X16 on a Read on the reference kernel. *)
Lemma Read_Write_close_their_event_run :
  exists ev w1 w2 v e w',
    @sys _ (Sim.run Sim.reference) (SysCreateEvent None true true None)
      dialed = Some (ev, None, w1)
    /\ @sys _ (Sim.run Sim.reference) (SysCloseHandle ev) w2
       = Some (v, e, w').
Proof.
  assert (E : PipeConn_Read (H := Sim.run Sim.reference) conn_a hello dialed
              = Done (5, None)
                  ((SysCloseHandle 0x104, (1, None))
                   :: (SysReadFile 0x100 5 event_1, (5, None))
                   :: (SysCreateEvent None true true None, (0x104, None))
                   :: dialed)) by reflexivity.
  destruct (Read_Write_close_their_event (H := Sim.run Sim.reference)
              conn_a hello dialed _ _ (or_introl E))
    as [(ev & z & F & _) | (ev & w1 & w2 & v & e & F & G)].
  - discriminate F.
  - exists ev, w1, w2, v, e. eexists. split; [exact F | exact G].
Defined.

(** X18 where the name is invalid. *)
Lemma Listen_creation_error_run :
  exists w,
    Listen (H := Sim.run Scenario.invalid_name) pipe_a [] =
    Done (None, Some (PipeErr (badAddr pipe_a))) w.
Proof.
  eexists.
  eapply (Listen_creation_error (H := Sim.run Scenario.invalid_name)
            pipe_a [] (Some NullDaclAttributes) None _
            syscall.InvalidHandle error_invalid_name _
            eq_refl eq_refl eq_refl).
Defined.

(** X19 where the security descriptor cannot be initialized. *)
Lemma Listen_without_security_attributes_run :
  exists w,
    Listen (H := Sim.run Scenario.no_security) pipe_a [] =
    Done (Some (PipeListener.mk pipe_a 0x100 false), None) w
    /\ Sim.calls w =
       [SysInitializeSecurityDescriptor 1;
        SysCreateNamedPipe pipe_a 0x40000003 0 255 512 512 0 None].
Proof.
  eexists. split.
  - eapply (proj1 (Listen_without_security_attributes
                     (H := Sim.run Scenario.no_security)
                     pipe_a 0x100 eq_refl)
              [] (Some syscall.ERROR_ACCESS_DENIED) _ _ eq_refl).
    reflexivity.
  - reflexivity.
Defined.

(** X20 where the client has connected first. *)
Lemma Accept_client_connected_run :
  exists c w,
    PipeListener_Accept (H := Sim.run Scenario.client_first)
      (Some listener_a) listening = Done (Some listener_a, (Some c, None)) w
    /\ PipeConn.handle c = 0x100
    /\ Sim.calls w =
       (Sim.calls listening ++
        [SysCreateEvent None true true None;
         SysConnectNamedPipe 0x100 event_1;
         SysCancelIoEx 0x100 event_1;
         SysCloseHandle 0x104])%list.
Proof.
  destruct (Accept_client_connected (H := Sim.run Scenario.client_first)
              listener_a listening 0x104 _ 0 (Some error_pipe_connected) _
              1 None _ 1 None _
              ltac:(discriminate) eq_refl ltac:(discriminate)
              ltac:(discriminate) eq_refl eq_refl
              (or_intror eq_refl) eq_refl eq_refl)
    as (c & E & Hh & _).
  exists c. eexists. split; [exact E |]. split; [exact Hh | reflexivity].
Defined.

(** X21 on the reference kernel: the run that leaves [accepted]. *)
Lemma Accept_waits_for_client_run :
  PipeListener_Accept (H := Sim.run Sim.reference) (Some listener_a)
    listening = Done (Some listener_a, (Some conn_a, None)) accepted.
Proof.
  apply (proj2 (Accept_waits_for_client (H := Sim.run Sim.reference)
                  listener_a 0 listening 0x104 _ 0 _ _ 0 _ 1 None _ 1 None
                  accepted
                  ltac:(discriminate) eq_refl ltac:(discriminate)
                  ltac:(discriminate) eq_refl eq_refl eq_refl eq_refl
                  eq_refl eq_refl) eq_refl).
Defined.

(** X22 where no client comes within 50 ms. *)
Lemma AcceptTimeout_times_out_run :
  exists w,
    PipeListener_AcceptTimeout (H := Sim.run Sim.never_completes)
      (Some listener_a) 50 listening =
    Done (Some listener_a,
          (None, Some (PipeErr (PipeError.mk "wait timeout" true)))) w
    /\ Sim.calls w =
       (Sim.calls listening ++
        [SysCreateEvent None true true None;
         SysConnectNamedPipe 0x100 event_1;
         SysWaitForSingleObject 0x104 50;
         SysCancelIoEx 0x100 event_1;
         SysCloseHandle 0x104])%list.
Proof.
  eexists. split.
  - eapply (AcceptTimeout_times_out (H := Sim.run Sim.never_completes)
              listener_a 50 listening 0x104 _ 0 _ _ 1 None _ 1 None _
              ltac:(discriminate) eq_refl ltac:(discriminate)
              ltac:(discriminate) ltac:(discriminate)
              eq_refl eq_refl eq_refl eq_refl).
    reflexivity.
  - reflexivity.
Defined.

(** X23 where the client has come and gone. *)
Lemma Accept_connect_error_run :
  exists w,
    PipeListener_AcceptTimeout (H := Sim.run Scenario.client_gone)
      (Some listener_a) 50 listening =
    Done (Some listener_a, (None, Some (Errno ERROR_NO_DATA))) w.
Proof.
  eexists.
  eapply (Accept_connect_error (H := Sim.run Scenario.client_gone)
            listener_a 50 listening 0x104 _ 0 ERROR_NO_DATA _
            1 None _ 1 None _
            ltac:(discriminate) eq_refl ltac:(discriminate)
            ltac:(discriminate) eq_refl eq_refl
            ltac:(discriminate) ltac:(discriminate) ltac:(discriminate)
            eq_refl eq_refl).
Defined.

(** X24 on the reference kernel: after the Accept that leaves [accepted],
    Close disconnects handle 0x100, the handle of the connection. *)
Lemma Close_after_Accept_disconnects_run :
  PipeListener_Close (H := Sim.run Sim.reference) listener_a accepted =
  Done (PipeListener.mk pipe_a 0 true, None)
    ((SysDisconnectNamedPipe (PipeConn.handle conn_a), (1, None))
     :: accepted).
Proof.
  assert (E : PipeListener_Accept (H := Sim.run Sim.reference)
                (Some listener_a) listening
              = Done (Some listener_a, (Some conn_a, None)) accepted)
    by reflexivity.
  exact (proj2 (Close_after_Accept_disconnects (H := Sim.run Sim.reference)
                  listener_a listening _ conn_a None accepted 1 None _
                  ltac:(discriminate) E eq_refl)).
Defined.

(** X25 where no client comes. *)
Lemma AcceptTimeout_zero_waits_forever_run :
  PipeListener_AcceptTimeout (H := Sim.run Sim.never_completes)
    (Some listener_a) 0 listening =
  Blocked (SysWaitForSingleObject 0x104 syscall.INFINITE)
    ((SysConnectNamedPipe 0x100 event_1, (0, Some syscall.ERROR_IO_PENDING))
     :: (SysCreateEvent None true true None, (0x104, None)) :: listening).
Proof.
  apply (proj1 (AcceptTimeout_zero_waits_forever
                  (H := Sim.run Sim.never_completes)
                  listener_a listening 0x104 _ 0 _
                  ltac:(discriminate) eq_refl ltac:(discriminate)
                  eq_refl eq_refl eq_refl)).
Defined.
